(** * Boatlaunch: the marker pipeline and the photo upload hand-off

  A shallow embedding of the parts of the slipway map application that
  carry a contract:

  - the join of the two remote tables ([latLngs], [slipwayDetails]) into
    the list of slipways, its fallback, and the filters of the map
    (components/Map.tsx);
  - file validation and image identifiers (services/fetchImgService.ts);
  - the two-phase upload (services/proxyUploadService.ts) and the
    handlers of the slipway view that persist its result
    (components/SlipwayView.tsx);
  - the other handlers of the slipway view (comments, editing, the image
    modal, its own load), the signing function
    (netlify/functions/sign_s3.js), the add form
    (components/AddSlipway.tsx) and the navigation of the application
    (App.tsx).

  JavaScript strings are kept as [string]: the byte string is read as the
  UTF-8 encoding of the JavaScript string, which commutes with [===],
  with [split] and [join] on ASCII separators and, through the
  white-space table below, with [trim].  Objects used as maps are
  [gmap]s keyed by property name. *)

From Stdlib Require Import ZArith NArith Ascii String DecimalString FunInd.
From stdpp Require Import base option list gmap strings.

Local Open Scope string_scope.
Local Open Scope list_scope.

(** ** Fragments of the JavaScript runtime the code relies on *)

Module JS.

(** Truthiness of a string: every string but the empty one. *)
Definition truthy (s : string) : bool :=
  match s with EmptyString => false | String _ _ => true end.

(** [v || d] where [v] is a possibly absent string property. *)
Definition or_else (v : option string) (d : string) : string :=
  match v with
  | Some s => if truthy s then s else d
  | None => d
  end.

(** [v || d] where [v] is a possibly absent array property: an array is
    truthy even when it is empty. *)
Definition or_array {A} (v : option (list A)) (d : list A) : list A :=
  match v with Some l => l | None => d end.

(** *** White space

    [String.prototype.trim] removes WhiteSpace and LineTerminator code
    points: U+0009..U+000D, U+0020, U+00A0, U+1680, U+2000..U+200A,
    U+2028, U+2029, U+202F, U+205F, U+3000 and U+FEFF.  They are one,
    two or three bytes long in UTF-8. *)

Definition ws1 (c : ascii) : bool :=
  let n := N_of_ascii c in
  ((9 <=? n) && (n <=? 13) || (n =? 32))%N.

Definition ws2 (c1 c2 : ascii) : bool :=
  ((N_of_ascii c1 =? 194) && (N_of_ascii c2 =? 160))%N.

Definition ws3 (c1 c2 c3 : ascii) : bool :=
  let a := N_of_ascii c1 in
  let b := N_of_ascii c2 in
  let c := N_of_ascii c3 in
  ((a =? 225) && (b =? 154) && (c =? 128)
   || (a =? 226) && (b =? 128)
        && ((128 <=? c) && (c <=? 138) || (c =? 168) || (c =? 169) || (c =? 175))
   || (a =? 226) && (b =? 129) && (c =? 159)
   || (a =? 227) && (b =? 128) && (c =? 128)
   || (a =? 239) && (b =? 187) && (c =? 191))%N.

(** Removal of leading white space, generic in the three recognisers so
    that the same scan serves the reversed string. *)
Fixpoint strip (w1 : ascii -> bool) (w2 : ascii -> ascii -> bool)
    (w3 : ascii -> ascii -> ascii -> bool) (s : list ascii) : list ascii :=
  match s with
  | [] => []
  | c1 :: r1 =>
      if w1 c1 then strip w1 w2 w3 r1
      else match r1 with
           | [] => s
           | c2 :: r2 =>
               if w2 c1 c2 then strip w1 w2 w3 r2
               else match r2 with
                    | [] => s
                    | c3 :: r3 =>
                        if w3 c1 c2 c3 then strip w1 w2 w3 r3 else s
                    end
           end
  end.

Definition trimStart_bytes (s : list ascii) : list ascii :=
  strip ws1 ws2 ws3 s.

Definition trimEnd_bytes (s : list ascii) : list ascii :=
  rev (strip ws1 (fun b a => ws2 a b) (fun c b a => ws3 a b c) (rev s)).

Definition trimStart (s : string) : string :=
  string_of_list_ascii (trimStart_bytes (list_ascii_of_string s)).

Definition trim (s : string) : string :=
  string_of_list_ascii
    (trimEnd_bytes (trimStart_bytes (list_ascii_of_string s))).

(** [s] starts with a white-space code point, in the reading of [strip]. *)
Definition leading (w1 : ascii -> bool) (w2 : ascii -> ascii -> bool)
    (w3 : ascii -> ascii -> ascii -> bool) (s : list ascii) : bool :=
  match s with
  | [] => false
  | c1 :: r1 =>
      w1 c1
      || match r1 with
         | [] => false
         | c2 :: r2 =>
             w2 c1 c2
             || match r2 with
                | [] => false
                | c3 :: _ => w3 c1 c2 c3
                end
         end
  end.

(** [s] is empty or made of white space only: [!s.trim()]. *)
Definition blank (s : string) : bool := negb (truthy (trim s)).

(** *** split and join *)

(** [s.split(sep)] for a non-empty separator.  [skip] counts the bytes of
    a separator occurrence that are still to be passed over; the head of
    the result is the segment being read. *)
Fixpoint split_from (sep : string) (skip : nat) (s : string) : list string :=
  match s with
  | EmptyString => [EmptyString]
  | String c s' =>
      match skip with
      | S k => split_from sep k s'
      | O =>
          if String.prefix sep s
          then EmptyString :: split_from sep (String.length sep - 1) s'
          else match split_from sep 0 s' with
               | seg :: segs => String c seg :: segs
               | [] => [String c EmptyString]
               end
      end
  end.

Definition split (sep s : string) : list string := split_from sep 0 s.

(** [s.includes(sub)] *)
Fixpoint includes (sub s : string) : bool :=
  String.prefix sub s
  || match s with
     | EmptyString => false
     | String _ s' => includes sub s'
     end.

(** [l.join(sep)] on an array of strings. *)
Definition join (sep : string) (l : list string) : string :=
  String.concat sep l.

(** *** Numbers

    A number is kept as the decimal it was written as; rounding to
    binary64 is not modelled.  What the pipeline observes of a parsed
    coordinate is whether it is [NaN]. *)
Inductive Number :=
| NaN
| Infinity (negative : bool)
| Decimal (negative : bool) (mantissa : N) (exponent : Z).

Definition digit (c : ascii) : option N :=
  let n := N_of_ascii c in
  if ((48 <=? n) && (n <=? 57))%N then Some (n - 48)%N else None.

(** The longest run of decimal digits at the head of [s]: its value, its
    length and what follows it. *)
Fixpoint digits (acc : N) (len : nat) (s : string) : N * nat * string :=
  match s with
  | EmptyString => (acc, len, s)
  | String c s' =>
      match digit c with
      | Some d => digits (10 * acc + d)%N (S len) s'
      | None => (acc, len, s)
      end
  end.

Definition sign (s : string) : bool * string :=
  match s with
  | String "-" r => (true, r)
  | String "+" r => (false, r)
  | _ => (false, s)
  end.

(** The exponent part is read only when it is complete. *)
Definition exponent_part (s : string) : Z :=
  match s with
  | String c r =>
      if (Ascii.eqb c "e" || Ascii.eqb c "E")%bool then
        let '(neg, r') := sign r in
        let '(v, len, _) := digits 0 0 r' in
        match len with
        | O => 0%Z
        | S _ => if neg then (- Z.of_N v)%Z else Z.of_N v
        end
      else 0%Z
  | EmptyString => 0%Z
  end.

(** [parseFloat]: leading white space is skipped, the longest prefix that
    is a decimal literal is read, and [NaN] is returned when there is
    none. *)
Definition parseFloat (input : string) : Number :=
  let '(neg, s) := sign (trimStart input) in
  if String.prefix "Infinity" s then Infinity neg
  else
    let '(ip, ilen, r1) := digits 0 0 s in
    let '(fp, flen, r2) :=
      match r1 with
      | String "." r => digits ip 0 r
      | _ => (ip, O, r1)
      end in
    match (ilen + flen)%nat with
    | O => NaN
    | S _ => Decimal neg fp (exponent_part r2 - Z.of_nat flen)
    end.

(** [parseFloat(a[i])]: an index out of range reads [undefined], which
    does not parse. *)
Definition parseFloat_at (a : list string) (i : nat) : Number :=
  match a !! i with
  | Some s => parseFloat s
  | None => NaN
  end.

Definition isNaN (x : Number) : bool :=
  match x with NaN => true | _ => false end.

(** Truthiness of a number: every number but [0], [-0] and [NaN]. *)
Definition truthyNumber (x : Number) : bool :=
  match x with
  | NaN => false
  | Infinity _ => true
  | Decimal _ mantissa _ => negb (mantissa =? 0)%N
  end.

End JS.

(** ** Data model (types/Slipway.ts and the remote record of a slipway) *)

Module Comment.
Record t := mk {
  id : string;
  userId : string;
  userName : string;
  userEmail : string;
  text : string;
  timestamp : Z;
  rating : option Z
}.
End Comment.

(** The in-memory entity.  An optional property that is absent is [None]. *)
Module Slipway.
Record t := mk {
  id : string;
  name : string;
  description : string;
  latitude : JS.Number;
  longitude : JS.Number;
  facilities : option (list string);
  imageUrl : option string;
  imgs : option (list string);
  comments : option (list Comment.t);
  charges : option string;
  nearestPlace : option string;
  rampType : option string;
  suitability : option string;
  directions : option string;
  email : option string;
  lowerArea : option string;
  mobilePhoneNumber : option string;
  navigationalHazards : option string;
  rampDescription : option string;
  rampLength : option string;
  upperArea : option string;
  website : option string
}.

(** [{ ...slipway, imgs: updatedImgs }] *)
Definition with_imgs (slipway : t) (updatedImgs : list string) : t :=
  mk (id slipway) (name slipway) (description slipway)
     (latitude slipway) (longitude slipway) (facilities slipway)
     (imageUrl slipway) (Some updatedImgs) (comments slipway)
     (charges slipway) (nearestPlace slipway) (rampType slipway)
     (suitability slipway) (directions slipway) (email slipway)
     (lowerArea slipway) (mobilePhoneNumber slipway)
     (navigationalHazards slipway) (rampDescription slipway)
     (rampLength slipway) (upperArea slipway) (website slipway).

(** [{ ...editedSlipway, facilities: value }] *)
Definition with_facilities (slipway : t) (value : list string) : t :=
  mk (id slipway) (name slipway) (description slipway)
     (latitude slipway) (longitude slipway) (Some value)
     (imageUrl slipway) (imgs slipway) (comments slipway)
     (charges slipway) (nearestPlace slipway) (rampType slipway)
     (suitability slipway) (directions slipway) (email slipway)
     (lowerArea slipway) (mobilePhoneNumber slipway)
     (navigationalHazards slipway) (rampDescription slipway)
     (rampLength slipway) (upperArea slipway) (website slipway).

(** [{ ...slipway, comments: updatedComments }] *)
Definition with_comments (slipway : t) (updatedComments : list Comment.t)
    : t :=
  mk (id slipway) (name slipway) (description slipway)
     (latitude slipway) (longitude slipway) (facilities slipway)
     (imageUrl slipway) (imgs slipway) (Some updatedComments)
     (charges slipway) (nearestPlace slipway) (rampType slipway)
     (suitability slipway) (directions slipway) (email slipway)
     (lowerArea slipway) (mobilePhoneNumber slipway)
     (navigationalHazards slipway) (rampDescription slipway)
     (rampLength slipway) (upperArea slipway) (website slipway).
End Slipway.

(** The record kept under [slipwayDetails/<id>], as the readers of the
  table take it: capitalised text properties, the image identifiers
  (under [imgs], formerly [ImageIds]) and the comments. *)
Module Details.
Record t := mk {
  Name : option string;
  Description : option string;
  RampDescription : option string;
  Facilities : option string;
  Charges : option string;
  NearestPlace : option string;
  RampType : option string;
  Suitability : option string;
  RampLength : option string;
  UpperArea : option string;
  LowerArea : option string;
  Directions : option string;
  Email : option string;
  MobilePhoneNumber : option string;
  NavigationalHazards : option string;
  Website : option string;
  imgs : option (list string);
  ImageIds : option (list string);
  comments : option (list Comment.t)
}.
End Details.

(** ** What the views pass to [onNavigate] *)

Module Nav.

(** The [data] argument of [onNavigate], by the shapes its callers build. *)
Inductive Data :=
| Text (slipwayId : string)
| CenterOn (id : string) (latitude longitude : JS.Number) (name : string)
| Location (latitude longitude : JS.Number)
| SlipwayId (slipwayId : string).

End Nav.

(** ** components/Map.tsx *)

Module Map.

(** The value of the [Facilities] property as a list:
    [details.Facilities ? details.Facilities.split(', ').filter(f => f.trim()) : []] *)
Definition parseFacilities (Facilities : option string) : list string :=
  match Facilities with
  | Some text =>
      if JS.truthy text
      then List.filter (fun f => JS.truthy (JS.trim f)) (JS.split ", " text)
      else []
  | None => []
  end.

(** The object literal built for one id in [fetchSlipways]. *)
Definition toSlipway (slipwayId : string) (coords : list string)
    (details : Details.t) : Slipway.t :=
  {| Slipway.id := slipwayId;
     Slipway.name := JS.or_else (Details.Name details) "Unknown";
     Slipway.description :=
       JS.or_else (Details.Description details) "No description available";
     Slipway.latitude := JS.parseFloat_at coords 0;
     Slipway.longitude := JS.parseFloat_at coords 1;
     Slipway.facilities := Some (parseFacilities (Details.Facilities details));
     Slipway.imageUrl := None;
     Slipway.imgs :=
       Some (JS.or_array (Details.imgs details)
               (JS.or_array (Details.ImageIds details) []));
     Slipway.comments := Some (JS.or_array (Details.comments details) []);
     Slipway.charges := Some (JS.or_else (Details.Charges details) "Unknown");
     Slipway.nearestPlace :=
       Some (JS.or_else (Details.NearestPlace details) "Unknown");
     Slipway.rampType := Some (JS.or_else (Details.RampType details) "Unknown");
     Slipway.suitability :=
       Some (JS.or_else (Details.Suitability details) "Unknown");
     Slipway.directions := Some (JS.or_else (Details.Directions details) "");
     Slipway.email := Some (JS.or_else (Details.Email details) "");
     Slipway.lowerArea := Some (JS.or_else (Details.LowerArea details) "");
     Slipway.mobilePhoneNumber :=
       Some (JS.or_else (Details.MobilePhoneNumber details) "");
     Slipway.navigationalHazards :=
       Some (JS.or_else (Details.NavigationalHazards details) "");
     Slipway.rampDescription :=
       Some (JS.or_else (Details.RampDescription details) "");
     Slipway.rampLength := Some (JS.or_else (Details.RampLength details) "");
     Slipway.upperArea := Some (JS.or_else (Details.UpperArea details) "");
     Slipway.website := Some (JS.or_else (Details.Website details) "") |}.

(** [Object.keys(o)]: every key once.  The keys come in the order the map
    lists them; nothing below depends on that order. *)
Definition Object_keys {V} (o : gmap string V) : list string :=
  (map_to_list o).*1.

(** The names of the members every object inherits from
    [Object.prototype]; a table read from the database is a plain
    object, so [table[name]] finds them when the table has no entry of
    that name.  Each of them is truthy (a function, or the prototype
    itself under [__proto__]). *)
Definition inheritedNames : list string :=
  ["constructor"; "hasOwnProperty"; "isPrototypeOf"; "propertyIsEnumerable";
   "toLocaleString"; "toString"; "valueOf"; "__defineGetter__";
   "__defineSetter__"; "__lookupGetter__"; "__lookupSetter__"; "__proto__"].

Definition inherits (name : string) : bool :=
  existsb (String.eqb name) inheritedNames.

(** [table[name]]: the entry of that name, or else the inherited member
    of that name, which the code goes on to read as if it were an entry:
    [inheritedAs] is what it then finds in it. *)
Definition member {V} (inheritedAs : V) (table : gmap string V)
    (name : string) : option V :=
  match table !! name with
  | Some v => Some v
  | None => if inherits name then Some inheritedAs else None
  end.

(** An inherited member read as a detail record: it has none of the
    properties the readers look up. *)
Definition noDetails : Details.t :=
  Details.mk None None None None None None None None None None None None
    None None None None None None None.


(** One turn of the [forEach]: the slipway pushed for [slipwayId], if any.
    [slipwayId] is a key of [latLngsData]; [detailsData[slipwayId]] is a
    property access.  An array, a record and an inherited member are
    truthy, so [coords && details] holds as soon as both are found. *)
Definition joinOne (latLngsData : gmap string (list string))
    (detailsData : gmap string Details.t) (slipwayId : string)
    : option Slipway.t :=
  match latLngsData !! slipwayId, member noDetails detailsData slipwayId with
  | Some coords, Some details =>
      if (2 <=? length coords)%nat
      then Some (toSlipway slipwayId coords details)
      else None
  | _, _ => None
  end.

(** [slipwayData] once the [forEach] over [Object.keys(latLngsData)] is
    over. *)
Definition joinSlipways (latLngsData : gmap string (list string))
    (detailsData : gmap string Details.t) : list Slipway.t :=
  omap (joinOne latLngsData detailsData) (Object_keys latLngsData).

(** The entities of a list that carry a given id. *)
Definition entitiesWithId (slipwayId : string) (l : list Slipway.t)
    : list Slipway.t :=
  List.filter (fun s => String.eqb (Slipway.id s) slipwayId) l.

(** The hardcoded sample data of the [catch] branch. *)
Definition sample (id name description : string) (lat lng : JS.Number)
    : Slipway.t :=
  Slipway.mk id name description lat lng
    None None None None None None None None None None None None None None
    None None None.

Definition fallbackSlipways : list Slipway.t :=
  [ sample "1" "Sample Slipway 1"
      "A beautiful slipway with great facilities"
      (JS.Decimal false 51505 (-3)) (JS.Decimal true 9 (-2));
    sample "2" "Sample Slipway 2"
      "Another great slipway with stunning views"
      (JS.Decimal false 51515 (-3)) (JS.Decimal true 1 (-1));
    sample "3" "Sample Slipway 3"
      "Perfect for launching boats"
      (JS.Decimal false 51525 (-3)) (JS.Decimal true 11 (-2)) ].

(** What [get(ref)] settles to: a rejection, or a snapshot whose [val()]
    is [null] exactly when [exists()] is false. *)
Inductive Got (T : Type) :=
| Rejected
| Snapshot (val : option T).
Arguments Rejected {T}.
Arguments Snapshot {T} val.

(** The realtime database keeps no empty node: reading a table without
    children yields a snapshot that does not exist. *)
Definition get {V} (table : gmap string V) : Got (gmap string V) :=
  Snapshot (if decide (table = ∅) then None else Some table).

(** The state of the component that the pipeline reads and writes. *)
Record State := mkState {
  slipways : list Slipway.t;
  filteredSlipways : list Slipway.t;
  loading : bool;
  error : option string;
  rampLengthFilter : string;
  suitabilityFilter : string
}.

(** The [useState] initial values. *)
Definition initialState : State :=
  mkState [] [] true None "" "".

(** [fetchSlipways], given what the two reads settle to.  A rejected read
    and the [throw] of the [else] branch both land in [catch]. *)
Definition fetchSlipways
    (latLngsGot : Got (gmap string (list string)))
    (detailsGot : Got (gmap string Details.t)) (st : State) : State :=
  match latLngsGot, detailsGot with
  | Snapshot (Some latLngsData), Snapshot (Some detailsData) =>
      let slipwayData := joinSlipways latLngsData detailsData in
      mkState slipwayData slipwayData false None
        (rampLengthFilter st) (suitabilityFilter st)
  | _, _ =>
      mkState fallbackSlipways (filteredSlipways st) false
        (Some "Failed to load slipway data")
        (rampLengthFilter st) (suitabilityFilter st)
  end.

(** [slipway.rampLength && slipway.rampLength === rampLengthFilter] *)
Definition rampLengthMatches (rampLengthFilter : string)
    (slipway : Slipway.t) : bool :=
  match Slipway.rampLength slipway with
  | Some rampLength =>
      JS.truthy rampLength && String.eqb rampLength rampLengthFilter
  | None => false
  end.

(** The callback of the suitability [filter]. *)
Definition suitabilityMatches (suitabilityFilter : string)
    (slipway : Slipway.t) : bool :=
  match Slipway.suitability slipway with
  | None => false
  | Some suitability =>
      if negb (JS.truthy suitability) then false
      else if String.eqb suitabilityFilter "Portable Only" then true
      else if String.eqb suitabilityFilter "Small trailer can be pushed" then
        String.eqb suitability "Small trailer can be pushed"
        || String.eqb suitability "Large trailer needs a car"
      else if String.eqb suitabilityFilter "Large trailer needs a car" then
        String.eqb suitability "Large trailer needs a car"
      else false
  end.

(** The body of the filter effect: [filtered] when it is stored. *)
Definition applyFilters (slipways : list Slipway.t)
    (rampLengthFilter suitabilityFilter : string) : list Slipway.t :=
  let filtered := slipways in
  let filtered :=
    if JS.truthy rampLengthFilter
    then List.filter (rampLengthMatches rampLengthFilter) filtered
    else filtered in
  if JS.truthy suitabilityFilter
  then List.filter (suitabilityMatches suitabilityFilter) filtered
  else filtered.

(** The filter effect, run after every change of [slipways] or of a
    filter. *)
Definition filterEffect (st : State) : State :=
  mkState (slipways st)
    (applyFilters (slipways st) (rampLengthFilter st) (suitabilityFilter st))
    (loading st) (error st) (rampLengthFilter st) (suitabilityFilter st).

Definition setRampLengthFilter (value : string) (st : State) : State :=
  filterEffect
    (mkState (slipways st) (filteredSlipways st) (loading st) (error st)
       value (suitabilityFilter st)).

Definition setSuitabilityFilter (value : string) (st : State) : State :=
  filterEffect
    (mkState (slipways st) (filteredSlipways st) (loading st) (error st)
       (rampLengthFilter st) value).

(** The component once it is mounted and the load has settled: the
    markers drawn are [filteredSlipways]. *)
Definition mounted (latLngsGot : Got (gmap string (list string)))
    (detailsGot : Got (gmap string Details.t)) : State :=
  filterEffect (fetchSlipways latLngsGot detailsGot (filterEffect initialState)).


(** Passing both filters, an empty filter being passed by everything. *)
Definition admitted (rampLengthFilter suitabilityFilter : string)
    (slipway : Slipway.t) : bool :=
  (negb (JS.truthy rampLengthFilter)
   || rampLengthMatches rampLengthFilter slipway)
  && (negb (JS.truthy suitabilityFilter)
      || suitabilityMatches suitabilityFilter slipway).

(** [clearFilters], and the filter effect that follows. *)
Definition clearFilters (st : State) : State :=
  filterEffect
    (mkState (slipways st) (filteredSlipways st) (loading st) (error st)
       "" "").

(** [truncateText], on the UTF-16 code units of [text], which is what
    [length] and [substring] count; the three units appended are those
    of ['...']. *)
Definition truncateText (text : list N) (maxLength : nat) : list N :=
  if (length text <=? maxLength)%nat then text
  else take maxLength text ++ [46; 46; 46]%N.

(** [handleMapClick]: the call made to [onNavigate], if any, and the add
    mode afterwards.  [onNavigate] tells whether the property was passed. *)
Definition handleMapClick (addSlipwayMode onNavigate : bool)
    (lat lng : JS.Number) : option (string * Nav.Data) * bool :=
  if addSlipwayMode && onNavigate
  then (Some ("addSlipway", Nav.Location lat lng), false)
  else (None, addSlipwayMode).

End Map.

(** ** services/fetchImgService.ts *)

Module FetchImgService.

Record ImageUrl := mkImageUrl {
  src : string;
  id : string
}.

(** [bucket] stands for [process.env.REACT_APP_S3_PHOTOS_BUCKET]. *)
Definition prefix (bucket : string) : string :=
  "https://s3-eu-west-1.amazonaws.com/" +:+ bucket +:+ "/WebSitePhotos/".

Definition suffix : string := "___Source.jpg".

Definition fetchImgsService (bucket : string)
    (imgIds : option (list string)) : list ImageUrl :=
  match imgIds with
  | None => []
  | Some imgIds =>
      map (fun imgId => mkImageUrl (prefix bucket +:+ imgId +:+ suffix) imgId)
        imgIds
  end.

(** A non-negative integer written in decimal, as a template literal
    prints it. *)
Definition decimal (n : N) : string :=
  NilZero.string_of_uint (N.to_uint n).

(** [timestamp] is [Date.now()] and [random] the six characters drawn
    from [Math.random()]. *)
Definition generateImageId (slipwayId : string) (timestamp : N)
    (random : string) : string :=
  "slipway_" +:+ slipwayId +:+ "_" +:+ decimal timestamp +:+ "_" +:+ random.

(** What the validation reads of a [File]. *)
Record File := mkFile {
  type : string;
  size : N
}.

Record Validation := mkValidation {
  valid : bool;
  error : option string
}.

Definition maxSize : N := 10 * 1024 * 1024.

Definition allowedTypes : list string :=
  ["image/jpeg"; "image/jpg"; "image/png"; "image/webp"].

(** [a.includes(x)] *)
Definition includes (a : list string) (x : string) : bool :=
  existsb (String.eqb x) a.

Definition validateImageFile (file : File) : Validation :=
  if negb (includes allowedTypes (type file)) then
    mkValidation false
      (Some "Please select a valid image file (JPEG, PNG, or WebP)")
  else if (maxSize <? size file)%N then
    mkValidation false (Some "Image file size must be less than 10MB")
  else mkValidation true None.

End FetchImgService.

(** ** services/proxyUploadService.ts *)

Module ProxyUploadService.

(** What [response.json()] settles to. *)
Inductive Body (A : Type) :=
| BadJson (message : string)
| Json (data : A).
Arguments BadJson {A} message.
Arguments Json {A} data.

(** What the request to the signing function settles to: [fetch] throws,
    or answers with [ok] false and an optional [error] property, or
    answers with [ok] true and the pair [signed_request], [url]. *)
Inductive SignResponse :=
| FetchThrows (message : string)
| NotOk (body : Body (option string))
| Ok (body : Body (string * string)).

(** How the transfer ends: [onload] with a status, or [onerror]. *)
Inductive Transfer :=
| Load (status : N)
| NetworkError.

(** The requests the service issues. *)
Inductive Request :=
| SignRequest (file_name file_type : string)
| PutRequest (signed_request content_type acl : string).

Inductive Settled :=
| Resolved (url : string)
| RejectedWith (message : string).

(** What a call leaves behind: the requests issued, the messages passed
    to [onProgress] and to [onError], and what the promise settles to.
    The byte-count ticks of [upload.onprogress] are left out: they only
    feed a progress bar that every completion path resets. *)
Record Outcome := mkOutcome {
  requests : list Request;
  progress : list string;
  errors : list string;
  settled : Settled
}.

(** The [catch] of the executor. *)
Definition caught (requests : list Request) (progress : list string)
    (errorMsg : string) : Outcome :=
  mkOutcome requests progress [errorMsg] (RejectedWith errorMsg).

Definition proxyUploadService (file : FetchImgService.File)
    (newImgId : string) (sign : SignResponse) (transfer : Transfer)
    : Outcome :=
  let fileName := "WebSitePhotos/" +:+ newImgId +:+ "___Source.jpg" in
  let signRequest := SignRequest fileName (FetchImgService.type file) in
  let progress := ["Getting S3 upload URL..."] in
  match sign with
  | FetchThrows message => caught [signRequest] progress message
  | NotOk (BadJson message) => caught [signRequest] progress message
  | NotOk (Json error) =>
      caught [signRequest] progress
        (JS.or_else error "Failed to get upload URL")
  | Ok (BadJson message) => caught [signRequest] progress message
  | Ok (Json (signed_request, url)) =>
      let progress := progress ++ ["Uploading directly to S3..."] in
      let requests :=
        [signRequest;
         PutRequest signed_request (FetchImgService.type file) "public-read"] in
      match transfer with
      | Load status =>
          if (status =? 200)%N then
            mkOutcome requests
              (progress ++ ["Image successfully uploaded to S3"]) []
              (Resolved url)
          else
            let errorMsg :=
              "S3 upload failed with status: "
            +:+ FetchImgService.decimal status in
            mkOutcome requests progress [errorMsg] (RejectedWith errorMsg)
      | NetworkError =>
          let errorMsg := "Network error during S3 upload" in
          mkOutcome requests progress [errorMsg] (RejectedWith errorMsg)
      end
  end.

End ProxyUploadService.

(** ** The signed-in user, as the components read it *)

Module Auth.

Record User := mkUser {
  uid : string;
  displayName : option string;
  email : option string
}.

End Auth.

(** ** components/SlipwayView.tsx *)

Module SlipwayView.

(** A value stored under a property of a database record. *)
Inductive JSValue :=
| JString (s : string)
| JNumber (x : JS.Number)
| JStrings (l : list string)
| JComments (l : list Comment.t).

(** One property of an object literal; a property that is absent
    contributes nothing. *)
Definition prop (key : string) (value : option JSValue)
    : list (string * JSValue) :=
  match value with
  | Some v => [(key, v)]
  | None => []
  end.

(** The own properties of an in-memory slipway, which is what
    [set(ref, slipway)] stores. *)
Definition properties (s : Slipway.t) : list (string * JSValue) :=
  prop "id" (Some (JString (Slipway.id s)))
  ++ prop "name" (Some (JString (Slipway.name s)))
  ++ prop "description" (Some (JString (Slipway.description s)))
  ++ prop "latitude" (Some (JNumber (Slipway.latitude s)))
  ++ prop "longitude" (Some (JNumber (Slipway.longitude s)))
  ++ prop "facilities" (JStrings <$> Slipway.facilities s)
  ++ prop "imageUrl" (JString <$> Slipway.imageUrl s)
  ++ prop "imgs" (JStrings <$> Slipway.imgs s)
  ++ prop "comments" (JComments <$> Slipway.comments s)
  ++ prop "charges" (JString <$> Slipway.charges s)
  ++ prop "nearestPlace" (JString <$> Slipway.nearestPlace s)
  ++ prop "rampType" (JString <$> Slipway.rampType s)
  ++ prop "suitability" (JString <$> Slipway.suitability s)
  ++ prop "directions" (JString <$> Slipway.directions s)
  ++ prop "email" (JString <$> Slipway.email s)
  ++ prop "lowerArea" (JString <$> Slipway.lowerArea s)
  ++ prop "mobilePhoneNumber" (JString <$> Slipway.mobilePhoneNumber s)
  ++ prop "navigationalHazards" (JString <$> Slipway.navigationalHazards s)
  ++ prop "rampDescription" (JString <$> Slipway.rampDescription s)
  ++ prop "rampLength" (JString <$> Slipway.rampLength s)
  ++ prop "upperArea" (JString <$> Slipway.upperArea s)
  ++ prop "website" (JString <$> Slipway.website s).

Definition toObject (s : Slipway.t) : gmap string JSValue :=
  list_to_map (properties s).

(** The record a writer of the capitalised layout stores (the add form,
    [handleSave]). *)
Definition detailsObject (d : Details.t) : gmap string JSValue :=
  list_to_map
    (prop "Name" (JString <$> Details.Name d)
     ++ prop "Description" (JString <$> Details.Description d)
     ++ prop "RampDescription" (JString <$> Details.RampDescription d)
     ++ prop "Facilities" (JString <$> Details.Facilities d)
     ++ prop "Charges" (JString <$> Details.Charges d)
     ++ prop "NearestPlace" (JString <$> Details.NearestPlace d)
     ++ prop "RampType" (JString <$> Details.RampType d)
     ++ prop "Suitability" (JString <$> Details.Suitability d)
     ++ prop "RampLength" (JString <$> Details.RampLength d)
     ++ prop "UpperArea" (JString <$> Details.UpperArea d)
     ++ prop "LowerArea" (JString <$> Details.LowerArea d)
     ++ prop "Directions" (JString <$> Details.Directions d)
     ++ prop "Email" (JString <$> Details.Email d)
     ++ prop "MobilePhoneNumber" (JString <$> Details.MobilePhoneNumber d)
     ++ prop "NavigationalHazards"
          (JString <$> Details.NavigationalHazards d)
     ++ prop "Website" (JString <$> Details.Website d)
     ++ prop "imgs" (JStrings <$> Details.imgs d)
     ++ prop "ImageIds" (JStrings <$> Details.ImageIds d)
     ++ prop "comments" (JComments <$> Details.comments d)).

Definition getString (o : gmap string JSValue) (key : string)
    : option string :=
  match o !! key with Some (JString s) => Some s | _ => None end.

Definition getStrings (o : gmap string JSValue) (key : string)
    : option (list string) :=
  match o !! key with Some (JStrings l) => Some l | _ => None end.

Definition getComments (o : gmap string JSValue) (key : string)
    : option (list Comment.t) :=
  match o !! key with Some (JComments l) => Some l | _ => None end.

(** A stored record as the readers of the table take it: the properties
    they read, by the names they read them under. *)
Definition asDetails (o : gmap string JSValue) : Details.t :=
  {| Details.Name := getString o "Name";
     Details.Description := getString o "Description";
     Details.RampDescription := getString o "RampDescription";
     Details.Facilities := getString o "Facilities";
     Details.Charges := getString o "Charges";
     Details.NearestPlace := getString o "NearestPlace";
     Details.RampType := getString o "RampType";
     Details.Suitability := getString o "Suitability";
     Details.RampLength := getString o "RampLength";
     Details.UpperArea := getString o "UpperArea";
     Details.LowerArea := getString o "LowerArea";
     Details.Directions := getString o "Directions";
     Details.Email := getString o "Email";
     Details.MobilePhoneNumber := getString o "MobilePhoneNumber";
     Details.NavigationalHazards := getString o "NavigationalHazards";
     Details.Website := getString o "Website";
     Details.imgs := getStrings o "imgs";
     Details.ImageIds := getStrings o "ImageIds";
     Details.comments := getComments o "comments" |}.

(** The entity built by [initializeSlipwayData] when no data is passed
    in (the object literal [fetchedSlipwayData]). *)
Definition fetchedSlipwayData (slipwayId : string) (coords : list string)
    (details : Details.t) : Slipway.t :=
  {| Slipway.id := slipwayId;
     Slipway.name := JS.or_else (Details.Name details) "Unknown";
     Slipway.description :=
       JS.or_else (Details.Description details) "No description available";
     Slipway.latitude := JS.parseFloat_at coords 0;
     Slipway.longitude := JS.parseFloat_at coords 1;
     Slipway.facilities :=
       Some (Map.parseFacilities (Details.Facilities details));
     Slipway.imageUrl := None;
     Slipway.imgs :=
       Some (JS.or_array (Details.imgs details)
               (JS.or_array (Details.ImageIds details) []));
     Slipway.comments := None;
     Slipway.charges := Some (JS.or_else (Details.Charges details) "");
     Slipway.nearestPlace :=
       Some (JS.or_else (Details.NearestPlace details) "");
     Slipway.rampType := Some (JS.or_else (Details.RampType details) "");
     Slipway.suitability :=
       Some (JS.or_else (Details.Suitability details) "");
     Slipway.directions := Some (JS.or_else (Details.Directions details) "");
     Slipway.email := Some (JS.or_else (Details.Email details) "");
     Slipway.lowerArea := Some (JS.or_else (Details.LowerArea details) "");
     Slipway.mobilePhoneNumber :=
       Some (JS.or_else (Details.MobilePhoneNumber details) "");
     Slipway.navigationalHazards :=
       Some (JS.or_else (Details.NavigationalHazards details) "");
     Slipway.rampDescription :=
       Some (JS.or_else (Details.RampDescription details) "");
     Slipway.rampLength := Some (JS.or_else (Details.RampLength details) "");
     Slipway.upperArea := Some (JS.or_else (Details.UpperArea details) "");
     Slipway.website := Some (JS.or_else (Details.Website details) "") |}.

(** The component state the handlers below touch. *)
Record State := mkState {
  slipway : option Slipway.t;
  editedSlipway : option Slipway.t;
  imageUrls : list FetchImgService.ImageUrl;
  isUploading : bool;
  uploadProgress : N
}.

(** The component together with what it acts on: the [slipwayDetails]
    table, the network requests issued so far and the alerts shown. *)
Record World := mkWorld {
  state : State;
  slipwayDetails : gmap string (gmap string JSValue);
  requests : list ProxyUploadService.Request;
  alerts : list string
}.

(** What the surroundings answer during one upload: the clock, the
    random draw, both phases of the hand-off, and whether the database
    write goes through. *)
Record Env := mkEnv {
  now : N;
  random : string;
  sign : ProxyUploadService.SignResponse;
  transfer : ProxyUploadService.Transfer;
  setResolves : bool
}.

Definition uploadFailed : string := "Upload failed. Please try again.".

(** [setIsUploading(false); setUploadProgress(0)] *)
Definition done_uploading (st : State) : State :=
  mkState (slipway st) (editedSlipway st) (imageUrls st) false 0%N.

(** [handlePhotoUpload]; [file] is [event.target.files?.[0]]. *)
Definition handlePhotoUpload (bucket slipwayId : string)
    (file : option FetchImgService.File) (env : Env) (w : World) : World :=
  match file with
  | None => w
  | Some file =>
      let validation := FetchImgService.validateImageFile file in
      if negb (FetchImgService.valid validation) then
        mkWorld (state w) (slipwayDetails w) (requests w)
          (alerts w ++ [default "undefined" (FetchImgService.error validation)])
      else
        let st := state w in
        let st :=
          mkState (slipway st) (editedSlipway st) (imageUrls st) true 0%N in
        let newImageId :=
          FetchImgService.generateImageId slipwayId (now env) (random env) in
        let upload :=
          ProxyUploadService.proxyUploadService file newImageId
            (sign env) (transfer env) in
        let requests := requests w ++ ProxyUploadService.requests upload in
        let alerts :=
          alerts w
          ++ map (fun _ => uploadFailed) (ProxyUploadService.errors upload) in
        match ProxyUploadService.settled upload with
        | ProxyUploadService.RejectedWith _ =>
            mkWorld (done_uploading st) (slipwayDetails w) requests
              (alerts ++ [uploadFailed])
        | ProxyUploadService.Resolved uploadUrl =>
            match JS.truthy uploadUrl, slipway st with
            | true, Some current =>
                let updatedImgs :=
                  JS.or_array (Slipway.imgs current) [] ++ [newImageId] in
                let updatedSlipway := Slipway.with_imgs current updatedImgs in
                let st :=
                  mkState (Some updatedSlipway) (Some updatedSlipway)
                    (FetchImgService.fetchImgsService bucket (Some updatedImgs))
                    (isUploading st) (uploadProgress st) in
                if setResolves env then
                  mkWorld (done_uploading st)
                    (<[slipwayId := toObject updatedSlipway]>
                       (slipwayDetails w))
                    requests alerts
                else
                  mkWorld (done_uploading st) (slipwayDetails w) requests
                    (alerts ++ [uploadFailed])
            | _, _ =>
                mkWorld (done_uploading st) (slipwayDetails w) requests alerts
            end
        end
  end.

(** The object literal [updatedDetails] that [handleSave] writes. *)
Definition updatedDetails (editedSlipway : Slipway.t) : Details.t :=
  {| Details.Name := Some (Slipway.name editedSlipway);
     Details.Description := Some (Slipway.description editedSlipway);
     Details.RampDescription :=
       Some (JS.or_else (Slipway.rampDescription editedSlipway)
               (Slipway.description editedSlipway));
     Details.Facilities :=
       Some (JS.or_else
               (JS.join ", " <$> Slipway.facilities editedSlipway) "");
     Details.Charges := Slipway.charges editedSlipway;
     Details.NearestPlace := Slipway.nearestPlace editedSlipway;
     Details.RampType := Slipway.rampType editedSlipway;
     Details.Suitability := Slipway.suitability editedSlipway;
     Details.RampLength := Slipway.rampLength editedSlipway;
     Details.UpperArea := Slipway.upperArea editedSlipway;
     Details.LowerArea := Slipway.lowerArea editedSlipway;
     Details.Directions := Slipway.directions editedSlipway;
     Details.Email := Slipway.email editedSlipway;
     Details.MobilePhoneNumber := Slipway.mobilePhoneNumber editedSlipway;
     Details.NavigationalHazards :=
       Slipway.navigationalHazards editedSlipway;
     Details.Website := Slipway.website editedSlipway;
     Details.imgs := None;
     Details.ImageIds := None;
     Details.comments := None |}.

(** [facilitiesText.split(',').map(f => f.trim()).filter(f => f)] *)
Definition enteredFacilities (facilitiesText : string) : list string :=
  List.filter JS.truthy (map JS.trim (JS.split "," facilitiesText)).



(** The value stored under a property of the record of a slipway. *)
Definition stored (table : gmap string (gmap string JSValue))
    (slipwayId key : string) : option JSValue :=
  match table !! slipwayId with
  | Some record => record !! key
  | None => None
  end.

(** *** Comments *)

Record CommentForm := mkCommentForm {
  newComment : string;
  newRating : Z;
  isSubmittingComment : bool
}.

Definition commentFailed : string :=
  "Failed to submit comment. Please try again.".

(** The object literal [comment]; [idClock] and [stampClock] are the two
    readings of [Date.now()]. *)
Definition commentOf (user : Auth.User) (commentText : string)
    (rating : option Z) (idClock stampClock : N) : Comment.t :=
  {| Comment.id := FetchImgService.decimal idClock;
     Comment.userId := Auth.uid user;
     Comment.userName :=
       JS.or_else (Auth.displayName user)
         (JS.or_else (Auth.email user) "Anonymous");
     Comment.userEmail := JS.or_else (Auth.email user) "";
     Comment.text := JS.trim commentText;
     Comment.timestamp := Z.of_N stampClock;
     Comment.rating :=
       match rating with
       | Some r => if ((r =? 0) || negb (0 <? r))%Z then None else Some r
       | None => None
       end |}.

(** [set(ref(database, `slipwayDetails/${slipwayId}/comments`), value)]:
    only the [comments] property of the record is written. *)
Definition setComments (slipwayId : string) (value : list Comment.t)
    (table : gmap string (gmap string JSValue))
    : gmap string (gmap string JSValue) :=
  <[ slipwayId :=
       <[ "comments" := JComments value ]> (default ∅ (table !! slipwayId)) ]>
    table.

(** [handleSubmitComment].  Reading [slipway!.comments] throws when no
    slipway is held, which lands in [catch]. *)
Definition handleSubmitComment (slipwayId : string) (user : option Auth.User)
    (commentText : string) (rating : option Z) (idClock stampClock : N)
    (setResolves : bool) (w : World) (form : CommentForm)
    : World * CommentForm :=
  match user with
  | None => (w, form)
  | Some user =>
      if negb (JS.truthy (JS.trim commentText)) || isSubmittingComment form
      then (w, form)
      else
        match slipway (state w) with
        | None =>
            (mkWorld (state w) (slipwayDetails w) (requests w)
               (alerts w ++ [commentFailed]),
             mkCommentForm (newComment form) (newRating form) false)
        | Some current =>
            let comment :=
              commentOf user commentText rating idClock stampClock in
            let updatedComments :=
              JS.or_array (Slipway.comments current) [] ++ [comment] in
            let st :=
              mkState (Some (Slipway.with_comments current updatedComments))
                (editedSlipway (state w)) (imageUrls (state w))
                (isUploading (state w)) (uploadProgress (state w)) in
            if setResolves then
              (mkWorld st
                 (setComments slipwayId updatedComments (slipwayDetails w))
                 (requests w) (alerts w),
               mkCommentForm "" 0 false)
            else
              (mkWorld st (slipwayDetails w) (requests w)
                 (alerts w ++ [commentFailed]),
               mkCommentForm (newComment form) (newRating form) false)
        end
  end.

(** *** Editing *)

Record EditForm := mkEditForm {
  isEditing : bool;
  saving : bool;
  error : option string
}.

Definition saveFailed : string := "Failed to save changes. Please try again.".

Definition handleEdit (w : World) (form : EditForm) : World * EditForm :=
  (mkWorld
     (mkState (slipway (state w)) (slipway (state w)) (imageUrls (state w))
        (isUploading (state w)) (uploadProgress (state w)))
     (slipwayDetails w) (requests w) (alerts w),
   mkEditForm true (saving form) (error form)).

Definition handleCancel (w : World) (form : EditForm) : World * EditForm :=
  (mkWorld
     (mkState (slipway (state w)) (slipway (state w)) (imageUrls (state w))
        (isUploading (state w)) (uploadProgress (state w)))
     (slipwayDetails w) (requests w) (alerts w),
   mkEditForm false (saving form) (error form)).

(** Every property of the object literal [updatedDetails] has a value.
    The database [set] throws on a property that is [undefined]. *)
Definition allDefined (d : Details.t) : bool :=
  forallb (fun v : option string => bool_decide (is_Some v))
    [Details.Name d; Details.Description d; Details.RampDescription d;
     Details.Facilities d; Details.Charges d; Details.NearestPlace d;
     Details.RampType d; Details.Suitability d; Details.Directions d;
     Details.Email d; Details.LowerArea d; Details.MobilePhoneNumber d;
     Details.NavigationalHazards d; Details.RampLength d;
     Details.UpperArea d; Details.Website d].

(** [handleSave]: the record under [slipwayDetails/<slipwayId>] is set to
    [updatedDetails]; a throwing or rejected [set] lands in [catch]. *)
Definition handleSave (slipwayId : string) (setResolves : bool) (w : World)
    (form : EditForm) : World * EditForm :=
  match editedSlipway (state w), slipway (state w) with
  | Some edited, Some _ =>
      let details := updatedDetails edited in
      if allDefined details && setResolves then
        (mkWorld
           (mkState (Some edited) (editedSlipway (state w))
              (imageUrls (state w)) (isUploading (state w))
              (uploadProgress (state w)))
           (<[ slipwayId := detailsObject details ]> (slipwayDetails w))
           (requests w) (alerts w),
         mkEditForm false false None)
      else
        (w, mkEditForm (isEditing form) false (Some saveFailed))
  | _, _ => (w, form)
  end.

(** *** The image modal *)

Inductive Direction := prev | next.

(** [a.findIndex(p)] *)
Fixpoint findIndex {A} (p : A -> bool) (a : list A) : Z :=
  match a with
  | [] => (-1)%Z
  | x :: rest =>
      if p x then 0%Z
      else match findIndex p rest with
           | Zneg _ => (-1)%Z
           | i => (i + 1)%Z
           end
  end.

Definition openImageModal (imageUrl : string)
    (imageUrls : list FetchImgService.ImageUrl) : option Z :=
  Some (findIndex
          (fun image => String.eqb (FetchImgService.src image) imageUrl)
          imageUrls).

Definition closeImageModal : option Z := None.

(** [navigateImage]: the new value of [selectedImageIndex]. *)
Definition navigateImage (direction : Direction)
    (imageUrls : list FetchImgService.ImageUrl)
    (selectedImageIndex : option Z) : option Z :=
  match selectedImageIndex with
  | None => None
  | Some i =>
      let n := Z.of_nat (length imageUrls) in
      match direction with
      | prev => Some (if (0 <? i)%Z then (i - 1)%Z else (n - 1)%Z)
      | next => Some (if (i <? n - 1)%Z then (i + 1)%Z else 0%Z)
      end
  end.

(** *** Loading the view *)




End SlipwayView.

(** ** netlify/functions/sign_s3.js *)

Module SignS3.

(** What the handler reads of the event; [file_name] and [file_type]
    are the two query-string parameters. *)
Record Event := mkEvent {
  httpMethod : string;
  file_name : option string;
  file_type : option string
}.

(** The environment variables the handler reads. *)
Record Environment := mkEnvironment {
  S3_BUCKET_NAME : option string;
  AWS_ACCESS_KEY_ID_1 : option string;
  AWS_SECRET_ACCESS_KEY_1 : option string
}.

(** What [s3.getSignedUrl] hands to its callback. *)
Inductive Signer :=
| SignerFails
| SignerGives (data : string).

(** The object that is serialised into the body, or the empty body. *)
Inductive Body :=
| NoBody
| ErrorBody (error : string) (details : option string)
| SignedBody (signed_request url : string).

(** The CORS headers are the same in every response and are left out. *)
Record Response := mkResponse {
  statusCode : N;
  body : Body
}.

(** Truthiness of an optional string. *)
Definition present (v : option string) : bool :=
  match v with
  | Some s => JS.truthy s
  | None => false
  end.

Definition handler (event : Event) (env : Environment) (signer : Signer)
    : Response :=
  if String.eqb (httpMethod event) "OPTIONS" then mkResponse 200 NoBody
  else if negb (String.eqb (httpMethod event) "GET") then
    mkResponse 405 (ErrorBody "Method not allowed" None)
  else if negb (present (file_name event)) || negb (present (file_type event))
  then mkResponse 400 (ErrorBody "Missing file_name or file_type" None)
  else if negb (present (S3_BUCKET_NAME env)) then
    mkResponse 500
      (ErrorBody "S3_BUCKET_NAME not configured"
         (Some "Please add S3_BUCKET_NAME to your environment variables"))
  else if negb (present (AWS_ACCESS_KEY_ID_1 env))
          || negb (present (AWS_SECRET_ACCESS_KEY_1 env))
  then
    mkResponse 500
      (ErrorBody "AWS credentials not configured"
         (Some "Please add AWS_ACCESS_KEY_ID_1 and AWS_SECRET_ACCESS_KEY_1 to your environment variables"))
  else
    match signer with
    | SignerFails => mkResponse 500 (ErrorBody "Error generating signed URL" None)
    | SignerGives signedUrl =>
        mkResponse 200
          (SignedBody signedUrl
             ("https://" +:+ JS.or_else (S3_BUCKET_NAME env) ""
              +:+ ".s3.amazonaws.com/" +:+ JS.or_else (file_name event) ""))
    end.

(** The event the function receives for a request of the upload service. *)
Definition eventOf (request : ProxyUploadService.Request) : option Event :=
  match request with
  | ProxyUploadService.SignRequest file_name file_type =>
      Some (mkEvent "GET" (Some file_name) (Some file_type))
  | ProxyUploadService.PutRequest _ _ _ => None
  end.

(** What the upload service makes of a response: [ok] is a status from
    200 to 299, and an empty body does not parse ([parseError] is the
    message of that failure).  The two shapes the handler never sends, a
    success without the signed pair and a failure carrying it, have no
    image. *)
Definition received (response : Response) (parseError : string)
    : option ProxyUploadService.SignResponse :=
  let ok := ((200 <=? statusCode response) && (statusCode response <=? 299))%N in
  match body response, ok with
  | NoBody, true =>
      Some (ProxyUploadService.Ok (ProxyUploadService.BadJson parseError))
  | NoBody, false =>
      Some (ProxyUploadService.NotOk (ProxyUploadService.BadJson parseError))
  | ErrorBody error _, false =>
      Some (ProxyUploadService.NotOk (ProxyUploadService.Json (Some error)))
  | SignedBody signed_request url, true =>
      Some (ProxyUploadService.Ok
              (ProxyUploadService.Json (signed_request, url)))
  | _, _ => None
  end.

End SignS3.

(** ** components/AddSlipway.tsx *)

Module AddSlipway.

Record FormData := mkFormData {
  name : string;
  description : string;
  facilities : string;
  charges : string;
  nearestPlace : string;
  rampType : string;
  suitability : string;
  rampLength : string;
  upperArea : string;
  lowerArea : string;
  directions : string;
  email : string;
  mobilePhoneNumber : string;
  website : string;
  navigationalHazards : string;
  rampDescription : string
}.

(** The two remote tables. *)
Record Tables := mkTables {
  latLngs : gmap string (list string);
  slipwayDetails : gmap string (gmap string SlipwayView.JSValue)
}.

(** What a submission leaves behind: the tables, the value of [error]
    and the call made to [onNavigate], if any. *)
Record Outcome := mkOutcome {
  tables : Tables;
  error : option string;
  navigation : option (string * Nav.Data)
}.

(** The object literal [slipwayDetails] of [handleSubmit]. *)
Definition detailsOf (formData : FormData) : Details.t :=
  {| Details.Name := Some (JS.trim (name formData));
     Details.Description :=
       Some (JS.or_else (Some (JS.trim (description formData)))
               "No description provided");
     Details.RampDescription :=
       Some (JS.or_else (Some (JS.trim (rampDescription formData)))
               (JS.trim (description formData)));
     Details.Facilities := Some (JS.trim (facilities formData));
     Details.Charges := Some (JS.trim (charges formData));
     Details.NearestPlace := Some (JS.trim (nearestPlace formData));
     Details.RampType := Some (rampType formData);
     Details.Suitability := Some (suitability formData);
     Details.RampLength := Some (rampLength formData);
     Details.UpperArea := Some (upperArea formData);
     Details.LowerArea := Some (lowerArea formData);
     Details.Directions := Some (JS.trim (directions formData));
     Details.Email := Some (JS.trim (email formData));
     Details.MobilePhoneNumber := Some (JS.trim (mobilePhoneNumber formData));
     Details.NavigationalHazards :=
       Some (JS.trim (navigationalHazards formData));
     Details.Website := Some (JS.trim (website formData));
     Details.imgs := Some [];
     Details.ImageIds := None;
     Details.comments := Some [] |}.

Definition saveFailed : string := "Failed to save slipway. Please try again.".

(** [handleSubmit].  [toString] is the printing of a number, whose
    digits are not modelled; [key] is the key of the reference that
    [push] creates; the two booleans tell whether the write of the
    coordinates and the write of the details go through; [onNavigate]
    tells whether the property was passed. *)
Definition handleSubmit (toString : JS.Number -> string)
    (user : option Auth.User)
    (initialLocation : option (JS.Number * JS.Number))
    (formData : FormData) (key : option string)
    (latLngsResolves detailsResolves onNavigate : bool) (t : Tables)
    : Outcome :=
  match user, initialLocation with
  | None, _ =>
      mkOutcome t (Some "You must be logged in to add a slipway") None
  | Some _, None => mkOutcome t (Some "Location is required") None
  | Some _, Some (latitude, longitude) =>
      if negb (JS.truthy (JS.trim (name formData))) then
        mkOutcome t (Some "Slipway name is required") None
      else if negb (SignS3.present key) then mkOutcome t (Some saveFailed) None
      else
        let slipwayId := JS.or_else key "" in
        if negb latLngsResolves then mkOutcome t (Some saveFailed) None
        else
          let coordinates :=
            <[ slipwayId := [toString latitude; toString longitude] ]>
              (latLngs t) in
          if negb detailsResolves then
            mkOutcome (mkTables coordinates (slipwayDetails t))
              (Some saveFailed) None
          else
            mkOutcome
              (mkTables coordinates
                 (<[ slipwayId :=
                       SlipwayView.detailsObject (detailsOf formData) ]>
                    (slipwayDetails t)))
              None
              (if onNavigate
               then Some ("map",
                          Nav.CenterOn slipwayId latitude longitude
                            (JS.trim (name formData)))
               else None)
  end.

(** The map's join over the two tables, each stored record being read
    through the properties the join looks up. *)
Definition joined (t : Tables) : list Slipway.t :=
  Map.joinSlipways (latLngs t) (SlipwayView.asDetails <$> slipwayDetails t).

End AddSlipway.

(** ** App.tsx *)

Module App.

(** The centring request: the data passed in, stamped with the clock. *)
Record Center := mkCenter {
  id : string;
  latitude : JS.Number;
  longitude : JS.Number;
  name : string;
  timestamp : N
}.

Record State := mkState {
  activeView : string;
  selectedSlipwayId : option string;
  addSlipwayLocation : option (JS.Number * JS.Number);
  centerOnSlipway : option Center;
  dropdownOpen : bool;
  formError : string;
  formSuccess : string
}.

(** What [handleMenuClick] sets besides the view: the selected id, the
    add location, the centring request, and the request its timer will
    set ten milliseconds later. *)
Definition routed (data : option Nav.Data) (now : N) (st : State)
    : option string * option (JS.Number * JS.Number) * option Center
      * option Center :=
  let unchanged := (selectedSlipwayId st, addSlipwayLocation st) in
  match data with
  | None => (unchanged, None, None)
  | Some (Nav.Text slipwayId) =>
      if JS.truthy slipwayId
      then (Some slipwayId, addSlipwayLocation st, None, None)
      else (unchanged, None, None)
  | Some (Nav.CenterOn id latitude longitude name) =>
      (unchanged, None, Some (mkCenter id latitude longitude name now))
  | Some (Nav.Location latitude longitude) =>
      if JS.truthyNumber latitude && JS.truthyNumber longitude
      then (selectedSlipwayId st, Some (latitude, longitude), None, None)
      else (unchanged, centerOnSlipway st, None)
  | Some (Nav.SlipwayId slipwayId) =>
      if JS.truthy slipwayId
      then (Some slipwayId, addSlipwayLocation st, None, None)
      else (unchanged, centerOnSlipway st, None)
  end.

(** [handleMenuClick]: the state it leaves and the pending timer. *)
Definition handleMenuClick (view : string) (data : option Nav.Data) (now : N)
    (st : State) : State * option Center :=
  let '(selected, location, center, timer) := routed data now st in
  (mkState view selected location center false "" "", timer).

(** The timer of a centring navigation fires. *)
Definition timerFires (centerData : Center) (st : State) : State :=
  mkState (activeView st) (selectedSlipwayId st) (addSlipwayLocation st)
    (Some centerData) (dropdownOpen st) (formError st) (formSuccess st).

End App.

(** * Properties *)

(** ** The runtime fragments on examples *)

Example split_comma_space : JS.split ", " "a, b,c, " = ["a"; "b,c"; ""].
Proof. reflexivity. Qed.

Example split_empty : JS.split ", " "" = [""].
Proof. reflexivity. Qed.

Example parseFloat_signed_exponent :
  JS.parseFloat "  -51.505e1xyz" = JS.Decimal true 51505 (-2).
Proof. reflexivity. Qed.

Example parseFloat_letters : JS.parseFloat "abc" = JS.NaN.
Proof. reflexivity. Qed.

Example parseFloat_leading_dot : JS.parseFloat ".5" = JS.Decimal false 5 (-1).
Proof. reflexivity. Qed.

Example parseFloat_lone_dot : JS.parseFloat "." = JS.NaN.
Proof. reflexivity. Qed.

Example trim_spaces : JS.trim "  a b  " = "a b".
Proof. reflexivity. Qed.

(** ** The join *)

Section Join.

Variable latLngsData : gmap string (list string).
Variable detailsData : gmap string Details.t.

Lemma joinOne_id slipwayId s :
  Map.joinOne latLngsData detailsData slipwayId = Some s ->
  Slipway.id s = slipwayId.
Proof.
  unfold Map.joinOne.
  destruct (latLngsData !! slipwayId) as [coords|]; [|discriminate].
  destruct (Map.member Map.noDetails detailsData slipwayId) as [details|];
    [|discriminate].
  destruct (2 <=? length coords)%nat; [|discriminate].
  intros [= <-]. reflexivity.
Qed.

Lemma Object_keys_NoDup {V} (o : gmap string V) : NoDup (Map.Object_keys o).
Proof. apply NoDup_fst_map_to_list. Qed.

Lemma Object_keys_elem {V} (o : gmap string V) k :
  k ∈ Map.Object_keys o <-> is_Some (o !! k).
Proof.
  unfold Map.Object_keys. rewrite list_elem_of_fmap. split.
  - intros [[k' v] [-> Hin]]. apply elem_of_map_to_list in Hin. eauto.
  - intros [v Hv]. exists (k, v). split; [reflexivity|].
    by apply elem_of_map_to_list.
Qed.

(** Over keys that occur once, the entities with a given id are the one
    pushed at that key, if any. *)
Lemma entitiesWithId_omap (f : string -> option Slipway.t) keys i :
  (forall k s, f k = Some s -> Slipway.id s = k) ->
  NoDup keys ->
  Map.entitiesWithId i (omap f keys)
  = if decide (i ∈ keys) then option_list (f i) else [].
Proof.
  intros Hid. induction 1 as [|k keys Hk Hnd IH]; [reflexivity|].
  cbn [omap list_omap]. unfold Map.entitiesWithId in *.
  destruct (decide (k = i)) as [->|Hne].
  - rewrite decide_True by left.
    rewrite decide_False in IH by assumption.
    destruct (f i) as [s|] eqn:Hf; [|exact IH].
    cbn [List.filter]. rewrite (Hid _ _ Hf), String.eqb_refl, IH.
    reflexivity.
  - rewrite (decide_ext (i ∈ k :: keys) (i ∈ keys))
      by (rewrite elem_of_cons; intuition congruence).
    destruct (f k) as [s|] eqn:Hf; [|exact IH].
    cbn [List.filter]. rewrite (Hid _ _ Hf).
    destruct (String.eqb_spec k i); [contradiction|exact IH].
Qed.

Lemma entitiesWithId_join i :
  Map.entitiesWithId i (Map.joinSlipways latLngsData detailsData)
  = option_list (Map.joinOne latLngsData detailsData i).
Proof.
  unfold Map.joinSlipways.
  rewrite entitiesWithId_omap by (apply joinOne_id || apply Object_keys_NoDup).
  destruct (decide _) as [Hin|Hin]; [reflexivity|].
  unfold Map.joinOne.
  destruct (latLngsData !! i) eqn:E; [|reflexivity].
  exfalso. apply Hin, Object_keys_elem. eauto.
Qed.

End Join.

Lemma member_own {V} (inheritedAs : V) table name v :
  table !! name = Some v -> Map.member inheritedAs table name = Some v.
Proof. unfold Map.member. intros ->. reflexivity. Qed.



(** C1 on a coordinate entry stored under "constructor" while the detail
    table has no record of that name: [detailsData["constructor"]] finds
    the member every object inherits, the test [coords && details]
    passes, and the join yields an entity, with the default name, for an
    id that only one of the two tables holds; it is among the markers
    drawn. *)
Theorem orphan_named_constructor_is_joined :
  let latLngsData : gmap string (list string) :=
    {[ "constructor" := ["50.1"; "-5.2"]; "a" := ["51.0"; "-4.0"] ]} in
  let detailsData : gmap string Details.t :=
    {[ "a" := SlipwayView.asDetails
                {[ "Name" := SlipwayView.JString "Quay" ]} ]} in
  latLngsData !! "constructor" = Some ["50.1"; "-5.2"]
  /\ detailsData !! "constructor" = None
  /\ Map.entitiesWithId "constructor"
       (Map.joinSlipways latLngsData detailsData)
     = [Map.toSlipway "constructor" ["50.1"; "-5.2"] Map.noDetails]
  /\ Slipway.name (Map.toSlipway "constructor" ["50.1"; "-5.2"] Map.noDetails)
     = "Unknown"
  /\ In "constructor"
       (map Slipway.id
          (Map.filteredSlipways
             (Map.mounted (Map.get latLngsData) (Map.get detailsData)))).
Proof.
  cbv zeta. split; [vm_compute; reflexivity|].
  split; [vm_compute; reflexivity|].
  split; [vm_compute; reflexivity|].
  split; [vm_compute; reflexivity|].
  vm_compute. tauto.
Qed.



(** ** The filters *)

Lemma truthy_true s : JS.truthy s = true <-> s <> "".
Proof. destruct s; simpl; split; congruence. Qed.

Lemma truthy_false s : JS.truthy s = false <-> s = "".
Proof. destruct s; simpl; split; congruence. Qed.

Lemma rampLengthMatches_true rampLengthFilter s :
  rampLengthFilter <> "" ->
  Map.rampLengthMatches rampLengthFilter s = true
  <-> Slipway.rampLength s = Some rampLengthFilter.
Proof.
  intros Hne. unfold Map.rampLengthMatches.
  destruct (Slipway.rampLength s) as [r|]; [|split; discriminate].
  rewrite andb_true_iff, truthy_true, String.eqb_eq. split.
  - intros [_ ->]. reflexivity.
  - intros [= ->]. split; [assumption|reflexivity].
Qed.

(** An entity is drawn when it is loaded and passes both filters; an
    empty filter passes everything. *)
Lemma applyFilters_In slipways rampLengthFilter suitabilityFilter s :
  In s (Map.applyFilters slipways rampLengthFilter suitabilityFilter)
  <-> In s slipways
      /\ (rampLengthFilter = "" \/ Slipway.rampLength s = Some rampLengthFilter)
      /\ (suitabilityFilter = ""
          \/ Map.suitabilityMatches suitabilityFilter s = true).
Proof.
  unfold Map.applyFilters.
  destruct (JS.truthy rampLengthFilter) eqn:Hr;
    destruct (JS.truthy suitabilityFilter) eqn:Hs;
    rewrite ?filter_In;
    try (apply truthy_true in Hr; rewrite (rampLengthMatches_true _ _ Hr));
    try apply truthy_false in Hr;
    try apply truthy_true in Hs; try apply truthy_false in Hs;
    intuition congruence.
Qed.

Lemma suitabilityMatches_portable s :
  Map.suitabilityMatches "Portable Only" s = true
  <-> exists v, Slipway.suitability s = Some v /\ v <> "".
Proof.
  unfold Map.suitabilityMatches.
  destruct (Slipway.suitability s) as [v|].
  - destruct v; simpl; split.
    + discriminate.
    + intros (? & [= <-] & ?). contradiction.
    + intros _. eexists. split; [reflexivity|discriminate].
    + reflexivity.
  - split; [discriminate|]. intros (? & ? & ?). discriminate.
Qed.

Lemma suitabilityMatches_small s :
  Map.suitabilityMatches "Small trailer can be pushed" s = true
  <-> Slipway.suitability s = Some "Small trailer can be pushed"
      \/ Slipway.suitability s = Some "Large trailer needs a car".
Proof.
  unfold Map.suitabilityMatches.
  destruct (Slipway.suitability s) as [v|].
  - destruct (JS.truthy v) eqn:Hv; cbn [negb].
    + change ("Small trailer can be pushed" =? "Portable Only")%string
        with false.
      change ("Small trailer can be pushed" =? "Small trailer can be pushed")%string
        with true.
      cbv iota. rewrite orb_true_iff, !String.eqb_eq.
      split; (intros [H|H]; [left|right]); congruence.
    + apply truthy_false in Hv. subst v.
      split; [discriminate|]. intros [?|?]; discriminate.
  - split; [discriminate|]. intros [?|?]; discriminate.
Qed.

Lemma suitabilityMatches_large s :
  Map.suitabilityMatches "Large trailer needs a car" s = true
  <-> Slipway.suitability s = Some "Large trailer needs a car".
Proof.
  unfold Map.suitabilityMatches.
  destruct (Slipway.suitability s) as [v|].
  - destruct (JS.truthy v) eqn:Hv; cbn [negb].
    + change ("Large trailer needs a car" =? "Portable Only")%string
        with false.
      change ("Large trailer needs a car" =? "Small trailer can be pushed")%string
        with false.
      change ("Large trailer needs a car" =? "Large trailer needs a car")%string
        with true.
      cbv iota. rewrite String.eqb_eq. split; congruence.
    + apply truthy_false in Hv. subst v. split; discriminate.
  - split; discriminate.
Qed.

Lemma suitabilityMatches_absent suitabilityFilter s :
  Slipway.suitability s = None \/ Slipway.suitability s = Some "" ->
  Map.suitabilityMatches suitabilityFilter s = false.
Proof.
  unfold Map.suitabilityMatches. intros [-> | ->]; reflexivity.
Qed.

(** C2, as the code has it: under "Portable Only" an entity is admitted
    exactly when it has a non-empty suitability value, whatever that value
    is; an entity without a suitability value is dropped by every active
    suitability filter, "Portable Only" included. *)
Theorem portable_only_admits_every_suitability_value
    (slipways : list Slipway.t) (rampLengthFilter : string) (s : Slipway.t) :
  (Map.suitabilityMatches "Portable Only" s = true
   <-> exists v, Slipway.suitability s = Some v /\ v <> "")
  /\ (In s (Map.applyFilters slipways "" "Portable Only")
      <-> In s slipways /\ exists v, Slipway.suitability s = Some v /\ v <> "")
  /\ (forall suitabilityFilter,
        suitabilityFilter <> "" ->
        Slipway.suitability s = None \/ Slipway.suitability s = Some "" ->
        Map.suitabilityMatches suitabilityFilter s = false
        /\ ~ In s (Map.applyFilters slipways rampLengthFilter
                     suitabilityFilter)).
Proof.
  split; [apply suitabilityMatches_portable|]. split.
  - rewrite applyFilters_In, suitabilityMatches_portable.
    intuition (try discriminate).
  - intros suitabilityFilter Hne Habsent.
    rewrite applyFilters_In,
      (suitabilityMatches_absent suitabilityFilter s Habsent).
    intuition discriminate.
Qed.

Lemma portable_only_admits_every_suitability_value_witness :
  In (Map.toSlipway "7" ["50.1"; "-5.2"]
        (SlipwayView.updatedDetails
           (Map.sample "7" "Quay" "Concrete ramp" JS.NaN JS.NaN)))
     (Map.applyFilters
        [Map.toSlipway "7" ["50.1"; "-5.2"]
           (SlipwayView.updatedDetails
              (Map.sample "7" "Quay" "Concrete ramp" JS.NaN JS.NaN))]
        "" "Portable Only")
  /\ ~ In (Map.sample "1" "Sample Slipway 1" "" JS.NaN JS.NaN)
         (Map.applyFilters
            [Map.sample "1" "Sample Slipway 1" "" JS.NaN JS.NaN]
            "" "Large trailer needs a car").
Proof.
  split.
  - apply (proj1 (proj2 (portable_only_admits_every_suitability_value _ "" _))).
    split; [left; reflexivity|].
    exists "Unknown". split; [reflexivity|discriminate].
  - apply (proj2 (proj2 (portable_only_admits_every_suitability_value _ "" _))
             "Large trailer needs a car");
      [discriminate | left; reflexivity].
Defined.

(** C2 as stated fails: an entity without a suitability value is not
    drawn under "Portable Only". *)
Lemma portable_only_drops_missing_suitability :
  Slipway.suitability
    (Map.sample "1" "Sample Slipway 1"
       "A beautiful slipway with great facilities"
       (JS.Decimal false 51505 (-3)) (JS.Decimal true 9 (-2))) = None
  /\ Map.applyFilters
       [Map.sample "1" "Sample Slipway 1"
          "A beautiful slipway with great facilities"
          (JS.Decimal false 51505 (-3)) (JS.Decimal true 9 (-2))]
       "" "Portable Only" = [].
Proof. split; reflexivity. Qed.

(** C4: with "Small trailer can be pushed" selected an entity is admitted
    exactly when its suitability is that value or "Large trailer needs a
    car"; with "Large trailer needs a car" selected, exactly when its
    suitability is "Large trailer needs a car".  The markers drawn are then
    the loaded entities that are admitted and pass the ramp-length filter. *)
Theorem suitability_tiers
    (slipways : list Slipway.t) (rampLengthFilter : string) (s : Slipway.t) :
  (Map.suitabilityMatches "Small trailer can be pushed" s = true
   <-> Slipway.suitability s = Some "Small trailer can be pushed"
       \/ Slipway.suitability s = Some "Large trailer needs a car")
  /\ (Map.suitabilityMatches "Large trailer needs a car" s = true
      <-> Slipway.suitability s = Some "Large trailer needs a car")
  /\ (In s (Map.applyFilters slipways rampLengthFilter
              "Small trailer can be pushed")
      <-> In s slipways
          /\ (rampLengthFilter = ""
              \/ Slipway.rampLength s = Some rampLengthFilter)
          /\ (Slipway.suitability s = Some "Small trailer can be pushed"
              \/ Slipway.suitability s = Some "Large trailer needs a car"))
  /\ (In s (Map.applyFilters slipways rampLengthFilter
              "Large trailer needs a car")
      <-> In s slipways
          /\ (rampLengthFilter = ""
              \/ Slipway.rampLength s = Some rampLengthFilter)
          /\ Slipway.suitability s = Some "Large trailer needs a car").
Proof.
  rewrite !applyFilters_In, !suitabilityMatches_small,
    !suitabilityMatches_large.
  intuition (try discriminate).
Qed.

(** ** The fallback *)

Lemma get_present {V} (table : gmap string V) k v :
  table !! k = Some v -> Map.get table = Map.Snapshot (Some table).
Proof.
  intros Hk. unfold Map.get. destruct (decide (table = ∅)) as [->|]; [|done].
  rewrite lookup_empty in Hk. discriminate.
Qed.

Lemma fetchSlipways_missing latLngsGot detailsGot st :
  latLngsGot = Map.Rejected \/ latLngsGot = Map.Snapshot None
  \/ detailsGot = Map.Rejected \/ detailsGot = Map.Snapshot None ->
  Map.fetchSlipways latLngsGot detailsGot st
  = Map.mkState Map.fallbackSlipways (Map.filteredSlipways st) false
      (Some "Failed to load slipway data")
      (Map.rampLengthFilter st) (Map.suitabilityFilter st).
Proof.
  intros [-> | [-> | [-> | ->]]]; try reflexivity;
    destruct latLngsGot as [|[?|]]; reflexivity.
Qed.

(** C8: when either table is absent or empty the load fails and the
    markers drawn are exactly the three hardcoded samples, with ids "1",
    "2" and "3". *)
Theorem load_failure_renders_samples
    (latLngs : gmap string (list string))
    (slipwayDetails : gmap string Details.t) :
  latLngs = ∅ \/ slipwayDetails = ∅ ->
  let st := Map.mounted (Map.get latLngs) (Map.get slipwayDetails) in
  Map.error st = Some "Failed to load slipway data"
  /\ Map.slipways st = Map.fallbackSlipways
  /\ Map.filteredSlipways st = Map.fallbackSlipways
  /\ map Slipway.id (Map.filteredSlipways st) = ["1"; "2"; "3"].
Proof.
  intros Hempty st. subst st. unfold Map.mounted.
  rewrite fetchSlipways_missing.
  - repeat split; reflexivity.
  - unfold Map.get. destruct Hempty as [-> | ->].
    + right. left. rewrite decide_True by reflexivity. reflexivity.
    + right. right. right. rewrite decide_True by reflexivity. reflexivity.
Qed.

Lemma load_failure_renders_samples_witness :
  map Slipway.id
    (Map.filteredSlipways
       (Map.mounted (Map.get {[ "a" := ["50.1"; "-5.2"] ]}) (Map.get ∅)))
  = ["1"; "2"; "3"].
Proof.
  apply (load_failure_renders_samples {[ "a" := ["50.1"; "-5.2"] ]} ∅).
  right. reflexivity.
Defined.

(** C10: the samples carry neither a suitability nor a ramp length, so
    any active filter leaves no marker while the fallback is in effect. *)
Theorem fallback_hidden_by_any_filter :
  Forall (fun s => Slipway.suitability s = None /\ Slipway.rampLength s = None)
    Map.fallbackSlipways
  /\ (forall rampLengthFilter suitabilityFilter,
        rampLengthFilter <> "" \/ suitabilityFilter <> "" ->
        Map.applyFilters Map.fallbackSlipways rampLengthFilter suitabilityFilter
        = [])
  /\ (forall st value,
        Map.slipways st = Map.fallbackSlipways ->
        Map.suitabilityFilter st = "" -> Map.rampLengthFilter st = "" ->
        value <> "" ->
        Map.filteredSlipways (Map.setSuitabilityFilter value st) = []
        /\ Map.filteredSlipways (Map.setRampLengthFilter value st) = []).
Proof.
  assert (Hfilters : forall rampLengthFilter suitabilityFilter,
             rampLengthFilter <> "" \/ suitabilityFilter <> "" ->
             Map.applyFilters Map.fallbackSlipways
               rampLengthFilter suitabilityFilter = []).
  { intros [|a r] [|b t] [H|H]; try contradiction; reflexivity. }
  split; [|split].
  - repeat constructor.
  - exact Hfilters.
  - intros st value Hs Hsf Hrf Hne. cbn. rewrite Hs, Hsf, Hrf.
    split; apply Hfilters; [right|left]; assumption.
Qed.

Lemma fallback_hidden_by_any_filter_witness :
  Map.applyFilters Map.fallbackSlipways "" "Portable Only" = []
  /\ Map.filteredSlipways
       (Map.setRampLengthFilter "1/4 tidal"
          (Map.mounted Map.Rejected Map.Rejected)) = [].
Proof.
  split.
  - apply (proj1 (proj2 fallback_hidden_by_any_filter)).
    right. discriminate.
  - apply (proj2 (proj2 fallback_hidden_by_any_filter));
      [reflexivity | reflexivity | reflexivity | discriminate].
Defined.

(** ** Coordinates that do not parse *)





(** ** Facility lists *)

Functional Scheme strip_ind := Induction for JS.strip Sort Prop.

Section Strip.

Variable w1 : ascii -> bool.
Variable w2 : ascii -> ascii -> bool.
Variable w3 : ascii -> ascii -> ascii -> bool.

Lemma strip_not_leading s : JS.leading w1 w2 w3 (JS.strip w1 w2 w3 s) = false.
Proof.
  functional induction (JS.strip w1 w2 w3 s) using strip_ind; trivial; simpl.
  all: repeat match goal with H : _ = false |- _ => rewrite H end;
    reflexivity.
Qed.

Lemma strip_fixed s :
  JS.leading w1 w2 w3 s = false -> JS.strip w1 w2 w3 s = s.
Proof.
  destruct s as [|c1 [|c2 [|c3 r]]]; simpl; trivial.
  - rewrite orb_false_r. intros ->. reflexivity.
  - intros [-> [-> _]%orb_false_iff]%orb_false_iff. reflexivity.
  - intros [-> [-> ->]%orb_false_iff]%orb_false_iff. reflexivity.
Qed.

Lemma strip_suffix s : JS.strip w1 w2 w3 s `suffix_of` s.
Proof.
  functional induction (JS.strip w1 w2 w3 s) using strip_ind;
    try reflexivity.
  - by apply suffix_cons_r.
  - by do 2 apply suffix_cons_r.
  - by do 3 apply suffix_cons_r.
Qed.

Lemma leading_prefix p s :
  p `prefix_of` s -> p <> [] ->
  JS.leading w1 w2 w3 s = false -> JS.leading w1 w2 w3 p = false.
Proof.
  intros [q ->].
  destruct p as [|c1 [|c2 [|c3 r]]]; simpl; try congruence; intros _.
  - destruct q as [|c2 [|c3 r]]; simpl; intros H;
      apply orb_false_iff in H as [-> _]; reflexivity.
  - destruct q as [|c3 r]; simpl;
      intros [-> [-> _]%orb_false_iff]%orb_false_iff; reflexivity.
Qed.

End Strip.

Lemma trimEnd_prefix s : JS.trimEnd_bytes s `prefix_of` s.
Proof.
  unfold JS.trimEnd_bytes.
  destruct (strip_suffix JS.ws1 (fun b a => JS.ws2 a b)
              (fun c b a => JS.ws3 a b c) (rev s)) as [k Hk].
  exists (rev k). rewrite <- rev_app_distr, <- Hk, rev_involutive.
  reflexivity.
Qed.

Lemma trimEnd_idem s :
  JS.trimEnd_bytes (JS.trimEnd_bytes s) = JS.trimEnd_bytes s.
Proof.
  unfold JS.trimEnd_bytes. rewrite rev_involutive.
  rewrite (strip_fixed _ _ _ _ (strip_not_leading _ _ _ _)). reflexivity.
Qed.

Lemma trimStart_trim s :
  JS.trimStart_bytes (JS.trimEnd_bytes (JS.trimStart_bytes s))
  = JS.trimEnd_bytes (JS.trimStart_bytes s).
Proof.
  destruct (JS.trimEnd_bytes (JS.trimStart_bytes s)) as [|c p] eqn:E;
    [reflexivity|].
  rewrite <- E. apply strip_fixed.
  apply (leading_prefix _ _ _ _ (JS.trimStart_bytes s)).
  - apply trimEnd_prefix.
  - rewrite E. discriminate.
  - apply strip_not_leading.
Qed.

(** Trimming twice is trimming once. *)
Lemma trim_idem s : JS.trim (JS.trim s) = JS.trim s.
Proof.
  unfold JS.trim. rewrite list_ascii_of_string_of_list_ascii.
  rewrite trimStart_trim, trimEnd_idem. reflexivity.
Qed.



Lemma join_or_else l : JS.or_else (Some (JS.join ", " l)) "" = JS.join ", " l.
Proof. unfold JS.or_else. destruct (JS.join ", " l); reflexivity. Qed.



(** ** Validation *)

Lemma includes_In a x : FetchImgService.includes a x = true <-> In x a.
Proof.
  unfold FetchImgService.includes. rewrite existsb_exists. split.
  - intros (y & Hy & ->%String.eqb_eq). exact Hy.
  - intros Hx. exists x. split; [exact Hx|apply String.eqb_refl].
Qed.

Lemma validate_type file :
  ~ In (FetchImgService.type file) FetchImgService.allowedTypes ->
  FetchImgService.validateImageFile file
  = FetchImgService.mkValidation false
      (Some "Please select a valid image file (JPEG, PNG, or WebP)").
Proof.
  intros Hnot. unfold FetchImgService.validateImageFile.
  destruct (FetchImgService.includes _ _) eqn:Ht; [|reflexivity].
  apply includes_In in Ht. contradiction.
Qed.

Lemma validate_size file :
  In (FetchImgService.type file) FetchImgService.allowedTypes ->
  (FetchImgService.maxSize < FetchImgService.size file)%N ->
  FetchImgService.validateImageFile file
  = FetchImgService.mkValidation false
      (Some "Image file size must be less than 10MB").
Proof.
  intros Hin%includes_In Hlt%N.ltb_lt.
  unfold FetchImgService.validateImageFile. rewrite Hin, Hlt. reflexivity.
Qed.

Lemma validate_passes file :
  In (FetchImgService.type file) FetchImgService.allowedTypes ->
  (FetchImgService.size file <= FetchImgService.maxSize)%N ->
  FetchImgService.validateImageFile file
  = FetchImgService.mkValidation true None.
Proof.
  intros Hin%includes_In Hle%N.ltb_ge.
  unfold FetchImgService.validateImageFile. rewrite Hin, Hle. reflexivity.
Qed.

Lemma validate_reason file :
  FetchImgService.valid (FetchImgService.validateImageFile file) = false ->
  exists reason,
    FetchImgService.error (FetchImgService.validateImageFile file)
    = Some reason.
Proof.
  unfold FetchImgService.validateImageFile.
  destruct (negb _); [eauto|].
  destruct (_ <? _)%N; [eauto|discriminate].
Qed.

(** C7: a file whose type is not allowed, or that is larger than 10 MiB,
    fails validation with the message of the constraint it breaks, and the
    handler then shows that message and stops: no request is issued and
    nothing is written.  A file of an allowed type and of at most 10 MiB
    passes. *)
Theorem invalid_file_stops_before_any_request
    (bucket slipwayId : string) (file : FetchImgService.File)
    (env : SlipwayView.Env) (w : SlipwayView.World) :
  (~ In (FetchImgService.type file)
        ["image/jpeg"; "image/jpg"; "image/png"; "image/webp"] ->
   FetchImgService.validateImageFile file
   = FetchImgService.mkValidation false
       (Some "Please select a valid image file (JPEG, PNG, or WebP)"))
  /\ (In (FetchImgService.type file)
         ["image/jpeg"; "image/jpg"; "image/png"; "image/webp"] ->
      (10 * 1024 * 1024 < FetchImgService.size file)%N ->
      FetchImgService.validateImageFile file
      = FetchImgService.mkValidation false
          (Some "Image file size must be less than 10MB"))
  /\ (In (FetchImgService.type file)
         ["image/jpeg"; "image/jpg"; "image/png"; "image/webp"] ->
      (FetchImgService.size file <= 10 * 1024 * 1024)%N ->
      FetchImgService.validateImageFile file
      = FetchImgService.mkValidation true None)
  /\ (FetchImgService.valid (FetchImgService.validateImageFile file) = false ->
      let w' :=
        SlipwayView.handlePhotoUpload bucket slipwayId (Some file) env w in
      SlipwayView.requests w' = SlipwayView.requests w
      /\ SlipwayView.slipwayDetails w' = SlipwayView.slipwayDetails w
      /\ SlipwayView.state w' = SlipwayView.state w
      /\ exists reason,
           FetchImgService.error (FetchImgService.validateImageFile file)
           = Some reason
           /\ SlipwayView.alerts w' = SlipwayView.alerts w ++ [reason]).
Proof.
  split; [apply validate_type|].
  split; [apply validate_size|].
  split; [apply validate_passes|].
  intros Hinvalid w'. subst w'. unfold SlipwayView.handlePhotoUpload.
  rewrite Hinvalid. cbn [negb SlipwayView.requests SlipwayView.slipwayDetails
                          SlipwayView.state SlipwayView.alerts].
  repeat split.
  destruct (validate_reason file Hinvalid) as [reason Hreason].
  exists reason. rewrite Hreason. split; reflexivity.
Qed.

Lemma invalid_file_stops_before_any_request_witness :
  SlipwayView.requests
    (SlipwayView.handlePhotoUpload "photos" "7"
       (Some (FetchImgService.mkFile "application/pdf" 2048))
       (SlipwayView.mkEnv 1700000000000 "k3x9qz"
          (ProxyUploadService.Ok
             (ProxyUploadService.Json ("https://signed", "https://public")))
          (ProxyUploadService.Load 200) true)
       (SlipwayView.mkWorld (SlipwayView.mkState None None [] false 0%N)
          ∅ [] []))
  = []
  /\ FetchImgService.validateImageFile
       (FetchImgService.mkFile "image/png" 20000000)
     = FetchImgService.mkValidation false
         (Some "Image file size must be less than 10MB")
  /\ FetchImgService.validateImageFile
       (FetchImgService.mkFile "image/webp" 10485760)
     = FetchImgService.mkValidation true None.
Proof.
  split; [|split].
  - apply (proj2 (proj2 (proj2
             (invalid_file_stops_before_any_request "photos" "7"
                (FetchImgService.mkFile "application/pdf" 2048)
                (SlipwayView.mkEnv 1700000000000 "k3x9qz"
                   (ProxyUploadService.Ok
                      (ProxyUploadService.Json
                         ("https://signed", "https://public")))
                   (ProxyUploadService.Load 200) true)
                (SlipwayView.mkWorld
                   (SlipwayView.mkState None None [] false 0%N) ∅ [] []))))).
    reflexivity.
  - apply (proj1 (proj2
             (invalid_file_stops_before_any_request "" ""
                (FetchImgService.mkFile "image/png" 20000000)
                (SlipwayView.mkEnv 0 "" (ProxyUploadService.FetchThrows "")
                   ProxyUploadService.NetworkError false)
                (SlipwayView.mkWorld
                   (SlipwayView.mkState None None [] false 0%N) ∅ [] [])))).
    + simpl. tauto.
    + reflexivity.
  - apply (proj1 (proj2 (proj2
             (invalid_file_stops_before_any_request "" ""
                (FetchImgService.mkFile "image/webp" 10485760)
                (SlipwayView.mkEnv 0 "" (ProxyUploadService.FetchThrows "")
                   ProxyUploadService.NetworkError false)
                (SlipwayView.mkWorld
                   (SlipwayView.mkState None None [] false 0%N) ∅ [] []))))).
    + simpl. tauto.
    + discriminate.
Defined.

(** ** The upload hand-off *)

(** The promise resolves only from [onload] with status 200, after a
    signed URL was obtained. *)
Lemma proxyUploadService_resolved file newImgId sign transfer url :
  ProxyUploadService.settled
    (ProxyUploadService.proxyUploadService file newImgId sign transfer)
  = ProxyUploadService.Resolved url ->
  transfer = ProxyUploadService.Load 200
  /\ exists signed_request,
       sign = ProxyUploadService.Ok
                (ProxyUploadService.Json (signed_request, url)).
Proof.
  unfold ProxyUploadService.proxyUploadService.
  destruct sign as [m | [m | e] | [m | [signed_request url']]];
    try discriminate.
  destruct transfer as [status|]; [|discriminate].
  destruct (N.eqb_spec status 200) as [->|]; [|discriminate].
  intros [= ->]. eauto.
Qed.

(** A rejected upload changes neither the table nor the entity held by
    the component. *)
Lemma handlePhotoUpload_rejected bucket slipwayId file env w message :
  ProxyUploadService.settled
    (ProxyUploadService.proxyUploadService file
       (FetchImgService.generateImageId slipwayId
          (SlipwayView.now env) (SlipwayView.random env))
       (SlipwayView.sign env) (SlipwayView.transfer env))
  = ProxyUploadService.RejectedWith message ->
  let w' := SlipwayView.handlePhotoUpload bucket slipwayId (Some file) env w in
  SlipwayView.slipwayDetails w' = SlipwayView.slipwayDetails w
  /\ SlipwayView.slipway (SlipwayView.state w')
     = SlipwayView.slipway (SlipwayView.state w)
  /\ SlipwayView.editedSlipway (SlipwayView.state w')
     = SlipwayView.editedSlipway (SlipwayView.state w)
  /\ SlipwayView.imageUrls (SlipwayView.state w')
     = SlipwayView.imageUrls (SlipwayView.state w).
Proof.
  intros Hrej w'. subst w'. unfold SlipwayView.handlePhotoUpload.
  destruct (negb _); [repeat split|].
  rewrite Hrej. repeat split.
Qed.

(** C5: when the transfer ends with a status other than 200 or with a
    network error the promise rejects, and the handler leaves the stored
    record and the entity's image list as they were; the table is written
    only after a transfer that ended with status 200. *)
Theorem failed_transfer_leaves_images
    (bucket slipwayId : string) (file : FetchImgService.File)
    (env : SlipwayView.Env) (w : SlipwayView.World) :
  let upload :=
    ProxyUploadService.proxyUploadService file
      (FetchImgService.generateImageId slipwayId
         (SlipwayView.now env) (SlipwayView.random env))
      (SlipwayView.sign env) (SlipwayView.transfer env) in
  let w' := SlipwayView.handlePhotoUpload bucket slipwayId (Some file) env w in
  (SlipwayView.transfer env <> ProxyUploadService.Load 200 ->
   (exists message,
      ProxyUploadService.settled upload
      = ProxyUploadService.RejectedWith message)
   /\ SlipwayView.slipwayDetails w' = SlipwayView.slipwayDetails w
   /\ SlipwayView.slipway (SlipwayView.state w')
      = SlipwayView.slipway (SlipwayView.state w)
   /\ SlipwayView.imageUrls (SlipwayView.state w')
      = SlipwayView.imageUrls (SlipwayView.state w))
  /\ (SlipwayView.slipwayDetails w' <> SlipwayView.slipwayDetails w ->
      SlipwayView.transfer env = ProxyUploadService.Load 200).
Proof.
  intros upload w'.
  assert (Hcases :
            (exists message,
               ProxyUploadService.settled upload
               = ProxyUploadService.RejectedWith message)
            \/ SlipwayView.transfer env = ProxyUploadService.Load 200).
  { destruct (ProxyUploadService.settled upload) as [url|message] eqn:E.
    - right. exact (proj1 (proxyUploadService_resolved _ _ _ _ _ E)).
    - left. eauto. }
  split.
  - intros Hne. destruct Hcases as [[message Hrej]|]; [|contradiction].
    split; [eauto|].
    destruct (handlePhotoUpload_rejected bucket slipwayId file env w _ Hrej)
      as (? & ? & ? & ?).
    auto.
  - intros Hchanged. destruct Hcases as [[message Hrej]|]; [|assumption].
    destruct (handlePhotoUpload_rejected bucket slipwayId file env w _ Hrej)
      as (? & _).
    contradiction.
Qed.

Lemma failed_transfer_leaves_images_witness :
  SlipwayView.slipwayDetails
    (SlipwayView.handlePhotoUpload "photos" "7"
       (Some (FetchImgService.mkFile "image/jpeg" 2048))
       (SlipwayView.mkEnv 1700000000000 "k3x9qz"
          (ProxyUploadService.Ok
             (ProxyUploadService.Json ("https://signed", "https://public")))
          (ProxyUploadService.Load 500) true)
       (SlipwayView.mkWorld
          (SlipwayView.mkState
             (Some (Map.toSlipway "7" ["50.1"; "-5.2"]
                      (SlipwayView.asDetails
                         {[ "Name" := SlipwayView.JString "Quay";
                            "imgs" := SlipwayView.JStrings ["p1"] ]})))
             None [] false 0%N)
          {[ "7" := {[ "Name" := SlipwayView.JString "Quay";
                       "imgs" := SlipwayView.JStrings ["p1"] ]} ]}
          [] []))
  = {[ "7" := {[ "Name" := SlipwayView.JString "Quay";
                 "imgs" := SlipwayView.JStrings ["p1"] ]} ]}.
Proof.
  match goal with
  | |- SlipwayView.slipwayDetails
         (SlipwayView.handlePhotoUpload ?b ?i (Some ?f) ?e ?w) = _ =>
      destruct (proj1 (failed_transfer_leaves_images b i f e w))
        as (_ & Hkept & _); [discriminate | exact Hkept]
  end.
Defined.

(** What a fully successful upload stores: the in-memory entity, with the
    new identifier at the end of its image list, in place of the record. *)
Lemma handlePhotoUpload_stores bucket slipwayId file env w
    signed_request url current :
  FetchImgService.valid (FetchImgService.validateImageFile file) = true ->
  SlipwayView.sign env
  = ProxyUploadService.Ok (ProxyUploadService.Json (signed_request, url)) ->
  url <> "" ->
  SlipwayView.transfer env = ProxyUploadService.Load 200 ->
  SlipwayView.setResolves env = true ->
  SlipwayView.slipway (SlipwayView.state w) = Some current ->
  SlipwayView.slipwayDetails
    (SlipwayView.handlePhotoUpload bucket slipwayId (Some file) env w)
  = <[ slipwayId :=
         SlipwayView.toObject
           (Slipway.with_imgs current
              (JS.or_array (Slipway.imgs current) []
               ++ [FetchImgService.generateImageId slipwayId
                     (SlipwayView.now env) (SlipwayView.random env)])) ]>
      (SlipwayView.slipwayDetails w).
Proof.
  intros Hvalid Hsign Hurl Htransfer Hset Hcurrent.
  unfold SlipwayView.handlePhotoUpload.
  rewrite Hvalid, Hsign, Htransfer. cbn [negb].
  unfold ProxyUploadService.proxyUploadService.
  cbn [N.eqb Pos.eqb ProxyUploadService.settled ProxyUploadService.errors
         ProxyUploadService.requests SlipwayView.slipway].
  rewrite (proj2 (truthy_true url) Hurl), Hcurrent, Hset. reflexivity.
Qed.

Lemma prop_key key value k :
  k ∈ (SlipwayView.prop key value).*1 -> k = key.
Proof.
  destruct value; cbn; [|intros []%elem_of_nil].
  intros [->|[]%elem_of_nil]%elem_of_cons. reflexivity.
Qed.

(** The stored entity has its image list under [imgs] ... *)
Lemma toObject_imgs s l :
  SlipwayView.toObject (Slipway.with_imgs s l) !! "imgs"
  = Some (SlipwayView.JStrings l).
Proof.
  unfold SlipwayView.toObject, SlipwayView.properties.
  destruct s as [? ? ? ? ? [?|] [?|] ? ? ? ? ? ? ? ? ? ? ? ? ? ? ?];
    cbn [Slipway.with_imgs Slipway.id Slipway.name Slipway.description
           Slipway.latitude Slipway.longitude Slipway.facilities
           Slipway.imageUrl Slipway.imgs SlipwayView.prop fmap option_fmap
           option_map app list_to_map foldr fst snd uncurry];
    rewrite !lookup_insert_ne by discriminate; apply lookup_insert_eq.
Qed.

(** ... and none of the capitalised properties of the record layout. *)
Lemma toObject_capitalised s key :
  key ∈ ["Name"; "Description"; "RampDescription"; "Facilities"; "Charges";
         "NearestPlace"; "RampType"; "Suitability"; "RampLength"; "UpperArea";
         "LowerArea"; "Directions"; "Email"; "MobilePhoneNumber";
         "NavigationalHazards"; "Website"] ->
  SlipwayView.toObject s !! key = None.
Proof.
  intros Hkey. apply not_elem_of_list_to_map_1.
  unfold SlipwayView.properties. rewrite !fmap_app, !elem_of_app.
  rewrite !elem_of_cons, elem_of_nil in Hkey.
  repeat (destruct Hkey as [->|Hkey];
          [intros Hin;
           repeat (destruct Hin as [Hin|Hin];
                   [apply prop_key in Hin; discriminate Hin|]);
           apply prop_key in Hin; discriminate Hin|]).
  destruct Hkey.
Qed.

Lemma exists_lookup {A} (o : option A) (Q : A -> Prop) :
  match o with Some a => Q a | None => False end ->
  exists a, o = Some a /\ Q a.
Proof. destruct o as [a|]; [eauto|tauto]. Qed.

(** C6 on a stored record with a name, a suitability and one image: after
    a fully successful upload the [imgs] property of the record is the old
    list followed by the new identifier, but the record itself has been
    replaced by the in-memory entity, so [Name] and [Suitability] are gone
    (the values now sit under [name] and [suitability]) and the next join
    reads the name as "Unknown". *)
Theorem successful_upload_replaces_record :
  let stored : gmap string SlipwayView.JSValue :=
    {[ "Name" := SlipwayView.JString "Harbour Quay";
       "Suitability" := SlipwayView.JString "Large trailer needs a car";
       "imgs" := SlipwayView.JStrings ["slipway_7_1699999999999_aaaaaa"] ]} in
  let current :=
    Map.toSlipway "7" ["50.1"; "-5.2"] (SlipwayView.asDetails stored) in
  let w :=
    SlipwayView.mkWorld
      (SlipwayView.mkState (Some current) (Some current)
         (FetchImgService.fetchImgsService "photos" (Slipway.imgs current))
         false 0%N)
      {[ "7" := stored ]} [] [] in
  let env :=
    SlipwayView.mkEnv 1700000000000 "k3x9qz"
      (ProxyUploadService.Ok
         (ProxyUploadService.Json ("https://signed", "https://public")))
      (ProxyUploadService.Load 200) true in
  let w' :=
    SlipwayView.handlePhotoUpload "photos" "7"
      (Some (FetchImgService.mkFile "image/jpeg" 2048)) env w in
  exists after,
    SlipwayView.slipwayDetails w' !! "7" = Some after
    /\ after !! "imgs"
       = Some (SlipwayView.JStrings
                 ["slipway_7_1699999999999_aaaaaa";
                  "slipway_7_1700000000000_k3x9qz"])
    /\ stored !! "Name" = Some (SlipwayView.JString "Harbour Quay")
    /\ after !! "Name" = None
    /\ after !! "name" = Some (SlipwayView.JString "Harbour Quay")
    /\ stored !! "Suitability"
       = Some (SlipwayView.JString "Large trailer needs a car")
    /\ after !! "Suitability" = None
    /\ Slipway.name
         (Map.toSlipway "7" ["50.1"; "-5.2"] (SlipwayView.asDetails after))
       = "Unknown".
Proof.
  cbv zeta. apply exists_lookup. vm_compute. repeat split.
Qed.

(** * Further properties of the code *)

(** ** The filters as one predicate *)

Lemma filter_filter {A} (p q : A -> bool) l :
  List.filter p (List.filter q l) = List.filter (fun x => q x && p x) l.
Proof.
  induction l as [|x l IH]; [reflexivity|]. cbn.
  destruct (q x); cbn; [destruct (p x)|]; rewrite IH; reflexivity.
Qed.

Lemma filter_all {A} (p : A -> bool) l :
  (forall x, In x l -> p x = true) -> List.filter p l = l.
Proof.
  induction l as [|x l IH]; [reflexivity|]. intros Hall. cbn.
  rewrite (Hall x (or_introl eq_refl)), IH; [reflexivity|].
  intros y Hy. apply Hall. right. exact Hy.
Qed.

Lemma filter_sublist {A} (p : A -> bool) l : List.filter p l `sublist_of` l.
Proof.
  induction l as [|x l IH]; [constructor|]. cbn.
  destruct (p x); [by apply sublist_skip | by apply sublist_cons].
Qed.

(** The two filters combine by AND: the markers drawn are the loaded
    entities that pass both, in their loaded order. *)
Theorem applyFilters_conjunction
    (slipways : list Slipway.t) (rampLengthFilter suitabilityFilter : string) :
  Map.applyFilters slipways rampLengthFilter suitabilityFilter
  = List.filter (Map.admitted rampLengthFilter suitabilityFilter) slipways.
Proof.
  unfold Map.applyFilters, Map.admitted.
  destruct (JS.truthy rampLengthFilter), (JS.truthy suitabilityFilter);
    cbn [negb orb].
  - apply filter_filter.
  - apply filter_ext. intros s. rewrite andb_true_r. reflexivity.
  - reflexivity.
  - symmetry. apply filter_all. reflexivity.
Qed.

(** Filtering only removes entities: what is drawn is a sublist of what
    is loaded, so the count shown never exceeds the total; and filtering
    the result again with the same filters changes nothing. *)
Theorem applyFilters_sublist_idempotent
    (slipways : list Slipway.t) (rampLengthFilter suitabilityFilter : string) :
  Map.applyFilters slipways rampLengthFilter suitabilityFilter
    `sublist_of` slipways
  /\ length (Map.applyFilters slipways rampLengthFilter suitabilityFilter)
     <= length slipways
  /\ Map.applyFilters
       (Map.applyFilters slipways rampLengthFilter suitabilityFilter)
       rampLengthFilter suitabilityFilter
     = Map.applyFilters slipways rampLengthFilter suitabilityFilter.
Proof.
  rewrite !applyFilters_conjunction.
  assert (Hsub := filter_sublist
                    (Map.admitted rampLengthFilter suitabilityFilter) slipways).
  split; [exact Hsub|]. split; [exact (sublist_length _ _ Hsub)|].
  apply filter_all. intros s [_ Hs]%filter_In. exact Hs.
Qed.

(** The tiers nest: what "Large trailer needs a car" admits,
    "Small trailer can be pushed" admits, and what that admits,
    "Portable Only" admits.  A filter value outside the three tiers
    admits nothing. *)
Theorem suitability_tiers_nest (suitabilityFilter : string) (s : Slipway.t) :
  (Map.suitabilityMatches "Large trailer needs a car" s = true ->
   Map.suitabilityMatches "Small trailer can be pushed" s = true)
  /\ (Map.suitabilityMatches "Small trailer can be pushed" s = true ->
      Map.suitabilityMatches "Portable Only" s = true)
  /\ (suitabilityFilter <> "Portable Only" ->
      suitabilityFilter <> "Small trailer can be pushed" ->
      suitabilityFilter <> "Large trailer needs a car" ->
      Map.suitabilityMatches suitabilityFilter s = false).
Proof.
  rewrite suitabilityMatches_large, suitabilityMatches_small,
    suitabilityMatches_portable.
  split; [tauto|]. split.
  - intros [H|H]; eexists; (split; [exact H|discriminate]).
  - intros H1 H2 H3. unfold Map.suitabilityMatches.
    destruct (Slipway.suitability s) as [v|]; [|reflexivity].
    destruct (negb (JS.truthy v)); [reflexivity|].
    destruct (String.eqb_spec suitabilityFilter "Portable Only");
      [contradiction|].
    destruct (String.eqb_spec suitabilityFilter "Small trailer can be pushed");
      [contradiction|].
    destruct (String.eqb_spec suitabilityFilter "Large trailer needs a car");
      [contradiction|reflexivity].
Qed.

Lemma suitability_tiers_nest_witness :
  Map.suitabilityMatches "Portable Only"
    (Map.toSlipway "7" ["50.1"; "-5.2"]
       (SlipwayView.asDetails
          {[ "Suitability" :=
               SlipwayView.JString "Large trailer needs a car" ]})) = true
  /\ Map.suitabilityMatches "Any trailer"
       (Map.toSlipway "7" ["50.1"; "-5.2"]
          (SlipwayView.asDetails
             {[ "Suitability" :=
                  SlipwayView.JString "Large trailer needs a car" ]})) = false.
Proof.
  split.
  - apply (proj1 (proj2 (suitability_tiers_nest "" _))).
    apply (proj1 (suitability_tiers_nest "" _)). reflexivity.
  - apply (proj2 (proj2 (suitability_tiers_nest "Any trailer" _)));
      discriminate.
Defined.

(** ** More on the join *)


Lemma joinSlipways_In latLngsData detailsData s :
  In s (Map.joinSlipways latLngsData detailsData)
  <-> Map.joinOne latLngsData detailsData (Slipway.id s) = Some s.
Proof.
  unfold Map.joinSlipways. rewrite <- list_elem_of_In, list_elem_of_omap.
  split.
  - intros (k & _ & Hk). rewrite (joinOne_id _ _ _ _ Hk). exact Hk.
  - intros Hs. exists (Slipway.id s). split; [|exact Hs].
    apply Object_keys_elem. unfold Map.joinOne in Hs.
    destruct (latLngsData !! Slipway.id s); [eauto|discriminate].
Qed.


Lemma joinSlipways_inv latLngsData detailsData s :
  In s (Map.joinSlipways latLngsData detailsData) ->
  exists coords details,
    latLngsData !! Slipway.id s = Some coords
    /\ Map.member Map.noDetails detailsData (Slipway.id s) = Some details
    /\ 2 <= length coords
    /\ s = Map.toSlipway (Slipway.id s) coords details.
Proof.
  intros Hs%joinSlipways_In. unfold Map.joinOne in Hs.
  destruct (latLngsData !! Slipway.id s) as [coords|]; [|discriminate].
  destruct (Map.member Map.noDetails detailsData (Slipway.id s))
    as [details|]; [|discriminate].
  destruct (Nat.leb_spec 2 (length coords)); [|discriminate].
  injection Hs as <-. eauto 6.
Qed.



Lemma or_else_truthy v d : d <> "" -> JS.or_else v d <> "".
Proof.
  intros Hd. unfold JS.or_else. destruct v as [s|]; [|exact Hd].
  destruct (JS.truthy s) eqn:Hs; [|exact Hd]. by apply truthy_true.
Qed.

(** Whatever the stored record lacks, an entity of the join has a name,
    a description and a suitability that are not empty; so with no
    ramp-length filter "Portable Only" hides none of the loaded
    entities, while an entity whose record has no suitability reads
    "Unknown" and is hidden by the two other tiers. *)
Theorem joined_entities_have_defaults
    (latLngsData : gmap string (list string))
    (detailsData : gmap string Details.t) :
  (forall s,
      In s (Map.joinSlipways latLngsData detailsData) ->
      Slipway.name s <> "" /\ Slipway.description s <> ""
      /\ exists v, Slipway.suitability s = Some v /\ v <> "")
  /\ Map.applyFilters (Map.joinSlipways latLngsData detailsData)
       "" "Portable Only"
     = Map.joinSlipways latLngsData detailsData
  /\ (forall s details,
        In s (Map.joinSlipways latLngsData detailsData) ->
        detailsData !! Slipway.id s = Some details ->
        Details.Suitability details = None ->
        Slipway.suitability s = Some "Unknown"
        /\ Map.suitabilityMatches "Small trailer can be pushed" s = false
        /\ Map.suitabilityMatches "Large trailer needs a car" s = false).
Proof.
  assert (Hdefaults : forall s,
             In s (Map.joinSlipways latLngsData detailsData) ->
             Slipway.name s <> "" /\ Slipway.description s <> ""
             /\ exists v, Slipway.suitability s = Some v /\ v <> "").
  { intros s Hs.
    destruct (joinSlipways_inv latLngsData detailsData s Hs)
      as (coords & details & _ & _ & _ & ->).
    cbn. split; [|split].
    - by apply or_else_truthy.
    - by apply or_else_truthy.
    - eexists. split; [reflexivity|]. by apply or_else_truthy. }
  split; [exact Hdefaults|]. split.
  - rewrite applyFilters_conjunction. apply filter_all. intros s Hs.
    unfold Map.admitted. cbn [JS.truthy negb orb andb].
    apply suitabilityMatches_portable. apply (Hdefaults s Hs).
  - intros s details Hs Hd Hnone.
    destruct (joinSlipways_inv latLngsData detailsData s Hs)
      as (coords & details' & _ & Hd' & _ & ->).
    cbn in Hd, Hd'. rewrite (member_own _ _ _ _ Hd) in Hd'.
    injection Hd' as <-.
    unfold Map.suitabilityMatches. cbn. rewrite Hnone. repeat split.
Qed.

Lemma joined_entities_have_defaults_witness :
  Slipway.name
    (Map.toSlipway "a" ["50.1"; "-5.2"] (SlipwayView.asDetails ∅)) <> ""
  /\ Map.suitabilityMatches "Large trailer needs a car"
       (Map.toSlipway "a" ["50.1"; "-5.2"] (SlipwayView.asDetails ∅)) = false.
Proof.
  split.
  - apply (proj1 (joined_entities_have_defaults
                    {[ "a" := ["50.1"; "-5.2"] ]}
                    {[ "a" := SlipwayView.asDetails ∅ ]})
             (Map.toSlipway "a" ["50.1"; "-5.2"] (SlipwayView.asDetails ∅))).
    vm_compute. left. reflexivity.
  - apply (proj2 (proj2 (joined_entities_have_defaults
                           {[ "a" := ["50.1"; "-5.2"] ]}
                           {[ "a" := SlipwayView.asDetails ∅ ]}))
             (Map.toSlipway "a" ["50.1"; "-5.2"] (SlipwayView.asDetails ∅))
             (SlipwayView.asDetails ∅)).
    + vm_compute. left. reflexivity.
    + reflexivity.
    + reflexivity.
Defined.

(** ** Popup text *)

(** A text of at most [maxLength] code units is shown as it is; a longer
    one is cut to its first [maxLength] units followed by three dots, so
    the text shown never exceeds [maxLength + 3] units (and is up to two
    units longer than the original when that one is just over the
    limit). *)
Theorem truncateText_bounds (text : list N) (maxLength : nat) :
  (length text <= maxLength -> Map.truncateText text maxLength = text)
  /\ (maxLength < length text ->
      Map.truncateText text maxLength
      = take maxLength text ++ [46; 46; 46]%N
      /\ length (Map.truncateText text maxLength) = maxLength + 3
      /\ take maxLength (Map.truncateText text maxLength)
         = take maxLength text)
  /\ length (Map.truncateText text maxLength) <= maxLength + 3.
Proof.
  unfold Map.truncateText.
  destruct (Nat.leb_spec (length text) maxLength) as [Hle|Hlt].
  - split; [reflexivity|]. split; [lia|lia].
  - assert (Hlen : length (take maxLength text ++ [46; 46; 46]%N)
                   = maxLength + 3).
    { rewrite length_app, length_take. cbn. lia. }
    split; [lia|]. split; [|lia].
    intros _. split; [reflexivity|]. split; [exact Hlen|].
    rewrite take_app_le by (rewrite length_take; lia).
    rewrite take_take. f_equal. lia.
Qed.

Lemma truncateText_bounds_witness :
  Map.truncateText [72; 105]%N 5 = [72; 105]%N
  /\ length (Map.truncateText [72; 97; 114; 98; 111; 117; 114]%N 5) = 8.
Proof.
  split.
  - apply (proj1 (truncateText_bounds [72; 105]%N 5)). simpl. lia.
  - apply (proj1 (proj2 (truncateText_bounds
                           [72; 97; 114; 98; 111; 117; 114]%N 5))).
    simpl. lia.
Defined.

(** ** The image modal *)

(** With an index inside the list of images, stepping keeps the index
    inside the list (wrapping around at both ends), and stepping forward
    then backward, or backward then forward, comes back to the same
    image.  A closed modal stays closed. *)
Theorem navigateImage_in_range
    (imageUrls : list FetchImgService.ImageUrl) (i : Z) :
  (0 <= i < Z.of_nat (length imageUrls))%Z ->
  (forall direction,
      exists j,
        SlipwayView.navigateImage direction imageUrls (Some i) = Some j
        /\ (0 <= j < Z.of_nat (length imageUrls))%Z)
  /\ SlipwayView.navigateImage SlipwayView.prev imageUrls
       (SlipwayView.navigateImage SlipwayView.next imageUrls (Some i))
     = Some i
  /\ SlipwayView.navigateImage SlipwayView.next imageUrls
       (SlipwayView.navigateImage SlipwayView.prev imageUrls (Some i))
     = Some i
  /\ (forall direction,
        SlipwayView.navigateImage direction imageUrls None = None).
Proof.
  intros Hi. unfold SlipwayView.navigateImage.
  split; [|split; [|split]].
  - intros [|]; eexists; (split; [reflexivity|]).
    + destruct (Z.ltb_spec 0 i); lia.
    + destruct (Z.ltb_spec i (Z.of_nat (length imageUrls) - 1)); lia.
  - destruct (Z.ltb_spec i (Z.of_nat (length imageUrls) - 1)).
    + destruct (Z.ltb_spec 0 (i + 1)); [f_equal; lia | lia].
    + cbn. f_equal. lia.
  - destruct (Z.ltb_spec 0 i).
    + destruct (Z.ltb_spec (i - 1) (Z.of_nat (length imageUrls) - 1));
        [f_equal; lia | lia].
    + destruct (Z.ltb_spec (Z.of_nat (length imageUrls) - 1)
                  (Z.of_nat (length imageUrls) - 1)); [lia|].
      f_equal. lia.
  - intros [|]; reflexivity.
Qed.

Lemma navigateImage_in_range_witness :
  SlipwayView.navigateImage SlipwayView.prev
    (FetchImgService.fetchImgsService "photos" (Some ["p1"; "p2"; "p3"]))
    (SlipwayView.navigateImage SlipwayView.next
       (FetchImgService.fetchImgsService "photos" (Some ["p1"; "p2"; "p3"]))
       (Some 2%Z))
  = Some 2%Z.
Proof.
  apply (navigateImage_in_range
           (FetchImgService.fetchImgsService "photos"
              (Some ["p1"; "p2"; "p3"])) 2).
  simpl. lia.
Defined.

Lemma findIndex_spec {A} (p : A -> bool) (a : list A) :
  (SlipwayView.findIndex p a = (-1)%Z /\ forall x, In x a -> p x = false)
  \/ exists n x,
       SlipwayView.findIndex p a = Z.of_nat n
       /\ a !! n = Some x /\ p x = true
       /\ forall m y, m < n -> a !! m = Some y -> p y = false.
Proof.
  induction a as [|x a IH]; cbn [SlipwayView.findIndex].
  - left. split; [reflexivity|]. intros x [].
  - destruct (p x) eqn:Hx.
    + right. exists 0, x. repeat split; [assumption|]. intros m y Hm. lia.
    + destruct IH as [[-> Hall] | (n & y & -> & Hn & Hy & Hbefore)].
      * left. split; [reflexivity|]. intros z [<-|Hz]; auto.
      * right. exists (S n), y. split; [|split; [exact Hn|split; [exact Hy|]]].
        -- destruct (Z.of_nat n) eqn:E; lia.
        -- intros [|m] z Hm; cbn; [congruence|].
           apply Hbefore. lia.
Qed.

(** Opening the modal on a URL selects the first image with that URL:
    an index inside the list whose image has that [src]; a URL of no
    image selects -1. *)
Theorem openImageModal_selects
    (imageUrl : string) (imageUrls : list FetchImgService.ImageUrl) :
  ((exists image, In image imageUrls
                  /\ FetchImgService.src image = imageUrl) ->
   exists n image,
     SlipwayView.openImageModal imageUrl imageUrls = Some (Z.of_nat n)
     /\ imageUrls !! n = Some image
     /\ FetchImgService.src image = imageUrl
     /\ forall m earlier,
          m < n -> imageUrls !! m = Some earlier ->
          FetchImgService.src earlier <> imageUrl)
  /\ ((forall image, In image imageUrls ->
                     FetchImgService.src image <> imageUrl) ->
      SlipwayView.openImageModal imageUrl imageUrls = Some (-1)%Z).
Proof.
  unfold SlipwayView.openImageModal.
  destruct (findIndex_spec
              (fun image => String.eqb (FetchImgService.src image) imageUrl)
              imageUrls)
    as [[-> Hall] | (n & x & -> & Hn & Hx & Hbefore)].
  - split.
    + intros (image & Hin & Hsrc). specialize (Hall image Hin). cbn in Hall.
      rewrite Hsrc, String.eqb_refl in Hall. discriminate.
    + reflexivity.
  - apply String.eqb_eq in Hx. split.
    + intros _. exists n, x. repeat split; [assumption..|].
      intros m earlier Hm Hearlier Heq.
      specialize (Hbefore m earlier Hm Hearlier). cbn in Hbefore.
      rewrite Heq, String.eqb_refl in Hbefore. discriminate.
    + intros Hnone. exfalso. apply (Hnone x); [|exact Hx].
      apply list_elem_of_In, list_elem_of_lookup. eauto.
Qed.

Lemma openImageModal_selects_witness :
  SlipwayView.openImageModal "https://elsewhere/x.jpg"
    (FetchImgService.fetchImgsService "photos" (Some ["p1"; "p2"]))
  = Some (-1)%Z
  /\ exists n image,
       SlipwayView.openImageModal
         "https://s3-eu-west-1.amazonaws.com/photos/WebSitePhotos/p2___Source.jpg"
         (FetchImgService.fetchImgsService "photos" (Some ["p1"; "p2"]))
       = Some (Z.of_nat n)
       /\ FetchImgService.fetchImgsService "photos" (Some ["p1"; "p2"]) !! n
          = Some image
       /\ FetchImgService.src image
          = "https://s3-eu-west-1.amazonaws.com/photos/WebSitePhotos/p2___Source.jpg".
Proof.
  split.
  - apply (proj2 (openImageModal_selects _ _)).
    intros image [<-|[<-|[]]]; discriminate.
  - destruct (proj1 (openImageModal_selects
                       "https://s3-eu-west-1.amazonaws.com/photos/WebSitePhotos/p2___Source.jpg"
                       (FetchImgService.fetchImgsService "photos"
                          (Some ["p1"; "p2"]))))
      as (n & image & Hopen & Hn & Hsrc & _).
    + eexists. split; [right; left; reflexivity|reflexivity].
    + exists n, image. split; [exact Hopen|]. split; [exact Hn|exact Hsrc].
Defined.

(** ** Image references *)

Lemma append_nil (s : string) : "" +:+ s = s.
Proof. reflexivity. Qed.

Lemma append_cons c (a s : string) : String c a +:+ s = String c (a +:+ s).
Proof. reflexivity. Qed.

Lemma append_inj_l (p a b : string) : p +:+ a = p +:+ b -> a = b.
Proof.
  induction p as [|c p IH]; rewrite ?append_nil, ?append_cons; [auto|].
  intros [= H]. auto.
Qed.

Lemma length_append (a b : string) :
  String.length (a +:+ b) = String.length a + String.length b.
Proof.
  induction a as [|c a IH]; rewrite ?append_nil, ?append_cons;
    [reflexivity|].
  cbn [String.length]. by rewrite IH.
Qed.

Lemma append_inj_r (a b s : string) : a +:+ s = b +:+ s -> a = b.
Proof.
  revert b. induction a as [|c a IH]; intros [|d b];
    rewrite ?append_nil, ?append_cons; intros H.
  - reflexivity.
  - apply (f_equal String.length) in H. cbn [String.length] in H.
    rewrite length_append in H. lia.
  - apply (f_equal String.length) in H. cbn [String.length] in H.
    rewrite length_append in H. lia.
  - injection H as -> H. f_equal. auto.
Qed.

Lemma append_assoc (a b c : string) : (a +:+ b) +:+ c = a +:+ (b +:+ c).
Proof.
  induction a as [|x a IH]; rewrite ?append_nil, ?append_cons;
    [reflexivity|].
  by rewrite IH.
Qed.

(** The display URLs follow the stored identifiers one for one and in
    order, each URL being the fixed prefix, the identifier and the fixed
    suffix; two images have the same URL only if they have the same
    identifier; an absent list gives no image. *)
Theorem fetchImgsService_urls (bucket : string) (imgIds : list string) :
  map FetchImgService.id
    (FetchImgService.fetchImgsService bucket (Some imgIds)) = imgIds
  /\ Forall
       (fun image =>
          FetchImgService.src image
          = "https://s3-eu-west-1.amazonaws.com/" +:+ bucket
            +:+ "/WebSitePhotos/" +:+ FetchImgService.id image
            +:+ "___Source.jpg")
       (FetchImgService.fetchImgsService bucket (Some imgIds))
  /\ (forall image1 image2,
        In image1 (FetchImgService.fetchImgsService bucket (Some imgIds)) ->
        In image2 (FetchImgService.fetchImgsService bucket (Some imgIds)) ->
        FetchImgService.src image1 = FetchImgService.src image2 ->
        image1 = image2)
  /\ FetchImgService.fetchImgsService bucket None = [].
Proof.
  cbn [FetchImgService.fetchImgsService].
  split; [|split; [|split; [|reflexivity]]].
  - rewrite map_map. cbn. apply map_id.
  - apply Forall_forall. intros image (imgId & <- & _)%list_elem_of_In%in_map_iff.
    cbn. unfold FetchImgService.prefix, FetchImgService.suffix.
    rewrite !append_assoc. reflexivity.
  - intros image1 image2 (i1 & <- & _)%in_map_iff (i2 & <- & _)%in_map_iff.
    cbn [FetchImgService.src]. intros H.
    apply append_inj_l, append_inj_r in H. subst. reflexivity.
Qed.

Lemma fetchImgsService_urls_witness :
  FetchImgService.mkImageUrl
    "https://s3-eu-west-1.amazonaws.com/photos/WebSitePhotos/p1___Source.jpg"
    "p1"
  = FetchImgService.mkImageUrl
      (FetchImgService.prefix "photos" +:+ "p1" +:+ FetchImgService.suffix)
      "p1".
Proof.
  apply (proj1 (proj2 (proj2 (fetchImgsService_urls "photos" ["p1"; "p2"])))).
  - left. reflexivity.
  - left. reflexivity.
  - reflexivity.
Defined.

(** ** The upload service *)

Lemma proxyUploadService_requests file newImgId sign transfer :
  ProxyUploadService.requests
    (ProxyUploadService.proxyUploadService file newImgId sign transfer)
  = ProxyUploadService.SignRequest
      ("WebSitePhotos/" +:+ newImgId +:+ "___Source.jpg")
      (FetchImgService.type file)
    :: match sign with
       | ProxyUploadService.Ok (ProxyUploadService.Json (signed_request, _)) =>
           [ProxyUploadService.PutRequest signed_request
              (FetchImgService.type file) "public-read"]
       | _ => []
       end.
Proof.
  unfold ProxyUploadService.proxyUploadService.
  destruct sign as [m | [m | e] | [m | [signed_request url]]];
    try reflexivity.
  destruct transfer as [status|]; [|reflexivity].
  destruct (status =? 200)%N; reflexivity.
Qed.

(** The service always asks for a signature first, for the key
    [WebSitePhotos/<id>___Source.jpg] and the type of the file; it sends
    the file, to the signed address and marked public-read, only when
    the signature came back, so it issues one or two requests.  [onError]
    is called exactly once, with the message of the rejection, when the
    promise rejects, and not at all when it resolves. *)
Theorem proxyUploadService_protocol
    (file : FetchImgService.File) (newImgId : string)
    (sign : ProxyUploadService.SignResponse)
    (transfer : ProxyUploadService.Transfer) :
  let upload :=
    ProxyUploadService.proxyUploadService file newImgId sign transfer in
  (exists rest,
     ProxyUploadService.requests upload
     = ProxyUploadService.SignRequest
         ("WebSitePhotos/" +:+ newImgId +:+ "___Source.jpg")
         (FetchImgService.type file) :: rest
     /\ ((rest = [] /\ forall signed_request url,
                         sign <> ProxyUploadService.Ok
                                   (ProxyUploadService.Json
                                      (signed_request, url)))
         \/ exists signed_request url,
              sign = ProxyUploadService.Ok
                       (ProxyUploadService.Json (signed_request, url))
              /\ rest = [ProxyUploadService.PutRequest signed_request
                           (FetchImgService.type file) "public-read"]))
  /\ match ProxyUploadService.settled upload with
     | ProxyUploadService.Resolved _ => ProxyUploadService.errors upload = []
     | ProxyUploadService.RejectedWith message =>
         ProxyUploadService.errors upload = [message]
     end.
Proof.
  intros upload. subst upload. split.
  - eexists. split; [apply proxyUploadService_requests|].
    destruct sign as [m | [m | e] | [m | [signed_request url]]];
      try (left; split; [reflexivity|discriminate]).
    right. eauto.
  - unfold ProxyUploadService.proxyUploadService.
    destruct sign as [m | [m | e] | [m | [signed_request url]]];
      try reflexivity.
    destruct transfer as [status|]; [|reflexivity].
    destruct (status =? 200)%N; reflexivity.
Qed.

(** The address an image is displayed from is the storage host, the
    bucket and the very key its upload asked a signature for. *)
Theorem display_url_is_signed_key
    (bucket : string) (file : FetchImgService.File) (newImgId : string)
    (sign : ProxyUploadService.SignResponse)
    (transfer : ProxyUploadService.Transfer) :
  exists key rest,
    ProxyUploadService.requests
      (ProxyUploadService.proxyUploadService file newImgId sign transfer)
    = ProxyUploadService.SignRequest key (FetchImgService.type file) :: rest
    /\ FetchImgService.fetchImgsService bucket (Some [newImgId])
       = [FetchImgService.mkImageUrl
            ("https://s3-eu-west-1.amazonaws.com/" +:+ bucket +:+ "/" +:+ key)
            newImgId].
Proof.
  eexists _, _. split; [apply proxyUploadService_requests|].
  cbn. unfold FetchImgService.prefix, FetchImgService.suffix.
  do 2 f_equal. rewrite !append_assoc. reflexivity.
Qed.

(** ** After a confirmed transfer *)

(** Once the transfer is confirmed the view shows the new image, last in
    the list, before the record is written: when the write then fails
    the table is left as it was and an alert is shown, but the view keeps
    the image.  When the signing answer carried no public address the
    confirmed transfer is dropped without a word: nothing is appended,
    nothing is written and no alert is shown. *)
Theorem confirmed_transfer_shows_image
    (bucket slipwayId : string) (file : FetchImgService.File)
    (env : SlipwayView.Env) (w : SlipwayView.World)
    (signed_request url : string) (current : Slipway.t) :
  FetchImgService.valid (FetchImgService.validateImageFile file) = true ->
  SlipwayView.sign env
  = ProxyUploadService.Ok (ProxyUploadService.Json (signed_request, url)) ->
  SlipwayView.transfer env = ProxyUploadService.Load 200 ->
  SlipwayView.slipway (SlipwayView.state w) = Some current ->
  let updatedImgs :=
    JS.or_array (Slipway.imgs current) []
    ++ [FetchImgService.generateImageId slipwayId
          (SlipwayView.now env) (SlipwayView.random env)] in
  let w' := SlipwayView.handlePhotoUpload bucket slipwayId (Some file) env w in
  (url <> "" ->
   SlipwayView.slipway (SlipwayView.state w')
   = Some (Slipway.with_imgs current updatedImgs)
   /\ SlipwayView.imageUrls (SlipwayView.state w')
      = FetchImgService.fetchImgsService bucket (Some updatedImgs)
   /\ SlipwayView.isUploading (SlipwayView.state w') = false
   /\ (SlipwayView.setResolves env = false ->
       SlipwayView.slipwayDetails w' = SlipwayView.slipwayDetails w
       /\ SlipwayView.alerts w'
          = SlipwayView.alerts w ++ ["Upload failed. Please try again."]))
  /\ (url = "" ->
      SlipwayView.slipway (SlipwayView.state w')
      = SlipwayView.slipway (SlipwayView.state w)
      /\ SlipwayView.imageUrls (SlipwayView.state w')
         = SlipwayView.imageUrls (SlipwayView.state w)
      /\ SlipwayView.slipwayDetails w' = SlipwayView.slipwayDetails w
      /\ SlipwayView.alerts w' = SlipwayView.alerts w).
Proof.
  intros Hvalid Hsign Htransfer Hcurrent updatedImgs w'.
  subst w' updatedImgs. unfold SlipwayView.handlePhotoUpload.
  rewrite Hvalid, Hsign, Htransfer. cbn [negb].
  unfold ProxyUploadService.proxyUploadService.
  cbn [N.eqb Pos.eqb ProxyUploadService.settled ProxyUploadService.errors
         ProxyUploadService.requests SlipwayView.slipway map].
  rewrite Hcurrent, app_nil_r. split.
  - intros Hurl%truthy_true. rewrite Hurl.
    destruct (SlipwayView.setResolves env); cbn;
      repeat split; discriminate.
  - intros ->. cbn. repeat split.
Qed.

Lemma confirmed_transfer_shows_image_witness :
  SlipwayView.imageUrls
    (SlipwayView.state
       (SlipwayView.handlePhotoUpload "photos" "7"
          (Some (FetchImgService.mkFile "image/jpeg" 2048))
          (SlipwayView.mkEnv 1700000000000 "k3x9qz"
             (ProxyUploadService.Ok
                (ProxyUploadService.Json ("https://signed", "https://public")))
             (ProxyUploadService.Load 200) false)
          (SlipwayView.mkWorld
             (SlipwayView.mkState
                (Some (Map.toSlipway "7" ["50.1"; "-5.2"]
                         (SlipwayView.asDetails ∅)))
                None [] false 0%N)
             ∅ [] [])))
  = FetchImgService.fetchImgsService "photos"
      (Some ["slipway_7_1700000000000_k3x9qz"]).
Proof.
  match goal with
  | |- SlipwayView.imageUrls
         (SlipwayView.state
            (SlipwayView.handlePhotoUpload ?b ?i (Some ?f) ?e ?w)) = _ =>
      destruct (proj1 (confirmed_transfer_shows_image b i f e w
                         "https://signed" "https://public"
                         (Map.toSlipway "7" ["50.1"; "-5.2"]
                            (SlipwayView.asDetails ∅))
                         eq_refl eq_refl eq_refl eq_refl))
        as (_ & Hurls & _); [discriminate | exact Hurls]
  end.
Defined.

(** ** Comments *)

(** A comment that is blank once trimmed, a visitor who is not signed
    in, or a submission already under way: the handler does nothing. *)
Theorem handleSubmitComment_guards
    (slipwayId : string) (user : option Auth.User) (commentText : string)
    (rating : option Z) (idClock stampClock : N) (setResolves : bool)
    (w : SlipwayView.World) (form : SlipwayView.CommentForm) :
  JS.trim commentText = "" \/ user = None
  \/ SlipwayView.isSubmittingComment form = true ->
  SlipwayView.handleSubmitComment slipwayId user commentText rating
    idClock stampClock setResolves w form
  = (w, form).
Proof.
  unfold SlipwayView.handleSubmitComment.
  destruct user as [u|]; [|reflexivity].
  intros [Hblank | [Hnone | Hbusy]]; [| discriminate |].
  - rewrite Hblank. reflexivity.
  - rewrite Hbusy, orb_true_r. reflexivity.
Qed.

Lemma handleSubmitComment_guards_witness :
  SlipwayView.handleSubmitComment "7"
    (Some (Auth.mkUser "u1" None (Some "ann@example.org"))) "   "
    (Some 4%Z) 1700000000000 1700000000001 true
    (SlipwayView.mkWorld (SlipwayView.mkState None None [] false 0%N) ∅ [] [])
    (SlipwayView.mkCommentForm "   " 4 false)
  = (SlipwayView.mkWorld (SlipwayView.mkState None None [] false 0%N) ∅ [] [],
     SlipwayView.mkCommentForm "   " 4 false).
Proof.
  apply handleSubmitComment_guards. left. reflexivity.
Defined.

Lemma stored_setComments_eq slipwayId value table :
  SlipwayView.stored (SlipwayView.setComments slipwayId value table)
    slipwayId "comments"
  = Some (SlipwayView.JComments value).
Proof.
  unfold SlipwayView.stored, SlipwayView.setComments.
  rewrite lookup_insert_eq. apply lookup_insert_eq.
Qed.

Lemma stored_setComments_ne slipwayId value table other key :
  other <> slipwayId \/ key <> "comments" ->
  SlipwayView.stored (SlipwayView.setComments slipwayId value table) other key
  = SlipwayView.stored table other key.
Proof.
  unfold SlipwayView.stored, SlipwayView.setComments. intros Hne.
  destruct (decide (other = slipwayId)) as [->|Hother].
  - destruct Hne as [?|Hkey]; [contradiction|].
    rewrite lookup_insert_eq, lookup_insert_ne by congruence.
    destruct (table !! slipwayId); [reflexivity|apply lookup_empty].
  - rewrite lookup_insert_ne by congruence. reflexivity.
Qed.

(** A signed-in visitor's comment, trimmed, goes to the end of the list
    the view holds, at once.  When the write goes through, the record
    has that list under [comments] and nothing else in the table has
    changed, and the form is cleared; when it fails, the table is as it
    was and an alert is shown, but the view keeps the comment. *)
Theorem handleSubmitComment_appends
    (slipwayId : string) (user : Auth.User) (commentText : string)
    (rating : option Z) (idClock stampClock : N) (setResolves : bool)
    (w : SlipwayView.World) (form : SlipwayView.CommentForm)
    (current : Slipway.t) :
  JS.trim commentText <> "" ->
  SlipwayView.isSubmittingComment form = false ->
  SlipwayView.slipway (SlipwayView.state w) = Some current ->
  let comment :=
    SlipwayView.commentOf user commentText rating idClock stampClock in
  let updatedComments :=
    JS.or_array (Slipway.comments current) [] ++ [comment] in
  let after :=
    SlipwayView.handleSubmitComment slipwayId (Some user) commentText rating
      idClock stampClock setResolves w form in
  Comment.text comment = JS.trim commentText
  /\ SlipwayView.slipway (SlipwayView.state (fst after))
     = Some (Slipway.with_comments current updatedComments)
  /\ (setResolves = true ->
      SlipwayView.stored (SlipwayView.slipwayDetails (fst after))
        slipwayId "comments"
      = Some (SlipwayView.JComments updatedComments)
      /\ (forall other key,
            other <> slipwayId \/ key <> "comments" ->
            SlipwayView.stored (SlipwayView.slipwayDetails (fst after))
              other key
            = SlipwayView.stored (SlipwayView.slipwayDetails w) other key)
      /\ SlipwayView.alerts (fst after) = SlipwayView.alerts w
      /\ snd after = SlipwayView.mkCommentForm "" 0 false)
  /\ (setResolves = false ->
      SlipwayView.slipwayDetails (fst after) = SlipwayView.slipwayDetails w
      /\ SlipwayView.alerts (fst after)
         = SlipwayView.alerts w
           ++ ["Failed to submit comment. Please try again."]
      /\ SlipwayView.newComment (snd after) = SlipwayView.newComment form).
Proof.
  intros Htext%truthy_true Hidle Hcurrent comment updatedComments after.
  subst after. unfold SlipwayView.handleSubmitComment.
  rewrite Htext, Hidle, Hcurrent. cbn [negb orb].
  fold comment. fold updatedComments.
  split; [reflexivity|].
  destruct setResolves; cbn [fst snd SlipwayView.state SlipwayView.slipway
                               SlipwayView.slipwayDetails SlipwayView.alerts
                               SlipwayView.newComment].
  - split; [reflexivity|]. split; [|discriminate].
    intros _. split; [apply stored_setComments_eq|].
    split; [|split; reflexivity].
    intros other key Hne. by apply stored_setComments_ne.
  - split; [reflexivity|]. split; [discriminate|].
    intros _. repeat split.
Qed.

Lemma handleSubmitComment_appends_witness :
  SlipwayView.stored
    (SlipwayView.slipwayDetails
       (fst (SlipwayView.handleSubmitComment "7"
               (Some (Auth.mkUser "u1" None (Some "ann@example.org")))
               " Steep at low water " (Some 4%Z)
               1700000000000 1700000000001 true
               (SlipwayView.mkWorld
                  (SlipwayView.mkState
                     (Some (Map.toSlipway "7" ["50.1"; "-5.2"]
                              (SlipwayView.asDetails
                                 {[ "Name" := SlipwayView.JString "Quay" ]})))
                     None [] false 0%N)
                  {[ "7" := {[ "Name" := SlipwayView.JString "Quay" ]} ]}
                  [] [])
               (SlipwayView.mkCommentForm " Steep at low water " 4 false))))
    "7" "Name"
  = Some (SlipwayView.JString "Quay").
Proof.
  match goal with
  | |- SlipwayView.stored
         (SlipwayView.slipwayDetails
            (fst (SlipwayView.handleSubmitComment ?i (Some ?u) ?t ?r ?c1 ?c2
                    true ?w ?f))) _ _ = _ =>
      destruct (handleSubmitComment_appends i u t r c1 c2 true w f
                  (Map.toSlipway "7" ["50.1"; "-5.2"]
                     (SlipwayView.asDetails
                        {[ "Name" := SlipwayView.JString "Quay" ]})))
        as (_ & _ & Hwritten & _);
        [discriminate | reflexivity | reflexivity |];
        destruct (Hwritten eq_refl) as (_ & Hframe & _);
        rewrite Hframe; [reflexivity | right; discriminate]
  end.
Defined.

(** ** Records in the capitalised layout *)

Lemma lookup_props_skip k key v (l : list (string * SlipwayView.JSValue)) :
  k <> key ->
  (list_to_map (SlipwayView.prop key v ++ l) : gmap string SlipwayView.JSValue)
    !! k
  = (list_to_map l : gmap string SlipwayView.JSValue) !! k.
Proof.
  intros Hne. destruct v; cbn; [|reflexivity].
  apply lookup_insert_ne. congruence.
Qed.

Lemma lookup_props_here key v (l : list (string * SlipwayView.JSValue)) :
  key ∉ l.*1 ->
  (list_to_map (SlipwayView.prop key v ++ l) : gmap string SlipwayView.JSValue)
    !! key
  = v.
Proof.
  intros Hfresh. destruct v; cbn; [apply lookup_insert_eq|].
  by apply not_elem_of_list_to_map_1.
Qed.

Lemma lookup_props_last key v :
  (list_to_map (SlipwayView.prop key v) : gmap string SlipwayView.JSValue)
    !! key
  = v.
Proof. destruct v; cbn; [apply lookup_insert_eq|apply lookup_empty]. Qed.

Ltac props_fresh :=
  rewrite ?fmap_app, ?elem_of_app;
  let H := fresh "H" in
  intros H;
  repeat match type of H with
         | _ \/ _ => destruct H as [H|H]; [apply prop_key in H; discriminate H|]
         end;
  apply prop_key in H; discriminate H.

Ltac props_lookup :=
  unfold SlipwayView.detailsObject;
  repeat (rewrite lookup_props_skip by discriminate);
  first [ rewrite lookup_props_last
        | rewrite lookup_props_here by props_fresh ].

(** The writers of the capitalised layout and the readers of the table
    use the same property names: a record stored by [handleSave] or by
    the add form reads back, property by property, as it was written. *)
Lemma asDetails_detailsObject d :
  SlipwayView.asDetails (SlipwayView.detailsObject d) = d.
Proof.
  destruct d. unfold SlipwayView.asDetails, SlipwayView.getString,
    SlipwayView.getStrings, SlipwayView.getComments.
  f_equal; props_lookup;
    cbn [Details.Name Details.Description Details.RampDescription
           Details.Facilities Details.Charges Details.NearestPlace
           Details.RampType Details.Suitability Details.RampLength
           Details.UpperArea Details.LowerArea Details.Directions
           Details.Email Details.MobilePhoneNumber
           Details.NavigationalHazards Details.Website Details.imgs
           Details.ImageIds Details.comments];
    match goal with |- context [?f <$> ?v] => destruct v end; reflexivity.
Qed.

(** ** Saving an edit *)

(** A save that goes through replaces the stored record by the edited
    text properties: read back, the record gives the edited name and the
    facilities joined with a comma and a space, and it no longer has an
    image list or comments, whatever it had before.  The view then shows
    the edited entity and leaves edit mode.  When a text property of the
    edited entity is undefined, or the write is rejected, nothing is
    written and the view stays in edit mode with an error. *)
Theorem handleSave_replaces_record
    (slipwayId : string) (setResolves : bool) (w : SlipwayView.World)
    (form : SlipwayView.EditForm) (edited current : Slipway.t) :
  SlipwayView.editedSlipway (SlipwayView.state w) = Some edited ->
  SlipwayView.slipway (SlipwayView.state w) = Some current ->
  let after := SlipwayView.handleSave slipwayId setResolves w form in
  (SlipwayView.allDefined (SlipwayView.updatedDetails edited) = true ->
   setResolves = true ->
   (exists record,
      SlipwayView.slipwayDetails (fst after) !! slipwayId = Some record
      /\ SlipwayView.asDetails record = SlipwayView.updatedDetails edited
      /\ Details.Name (SlipwayView.asDetails record)
         = Some (Slipway.name edited)
      /\ Details.Facilities (SlipwayView.asDetails record)
         = Some (JS.join ", " (default [] (Slipway.facilities edited)))
      /\ Details.imgs (SlipwayView.asDetails record) = None
      /\ Details.comments (SlipwayView.asDetails record) = None)
   /\ SlipwayView.slipway (SlipwayView.state (fst after)) = Some edited
   /\ snd after = SlipwayView.mkEditForm false false None)
  /\ (SlipwayView.allDefined (SlipwayView.updatedDetails edited) = false
      \/ setResolves = false ->
      fst after = w
      /\ snd after
         = SlipwayView.mkEditForm (SlipwayView.isEditing form) false
             (Some "Failed to save changes. Please try again.")).
Proof.
  intros Hedited Hcurrent after. subst after.
  unfold SlipwayView.handleSave. rewrite Hedited, Hcurrent. split.
  - intros -> ->. cbn [andb fst snd SlipwayView.slipwayDetails
                         SlipwayView.state SlipwayView.slipway].
    split; [|split; reflexivity].
    eexists. split; [apply lookup_insert_eq|].
    rewrite asDetails_detailsObject. split; [reflexivity|].
    split; [reflexivity|]. split; [|split; reflexivity].
    unfold SlipwayView.updatedDetails. cbn [Details.Facilities].
    destruct (Slipway.facilities edited) as [l|]; [|reflexivity].
    change (JS.join ", " <$> Some l) with (Some (JS.join ", " l)).
    rewrite join_or_else. reflexivity.
  - intros [-> | ->]; rewrite ?andb_false_r; split; reflexivity.
Qed.

Lemma handleSave_replaces_record_witness :
  fst (SlipwayView.handleSave "1" true
         (SlipwayView.mkWorld
            (SlipwayView.mkState
               (Some (Map.sample "1" "Sample Slipway 1" "" JS.NaN JS.NaN))
               (Some (Map.sample "1" "Sample Slipway 1" "" JS.NaN JS.NaN))
               [] false 0%N)
            ∅ [] [])
         (SlipwayView.mkEditForm true false None))
  = SlipwayView.mkWorld
      (SlipwayView.mkState
         (Some (Map.sample "1" "Sample Slipway 1" "" JS.NaN JS.NaN))
         (Some (Map.sample "1" "Sample Slipway 1" "" JS.NaN JS.NaN))
         [] false 0%N)
      ∅ [] []
  /\ exists record,
       SlipwayView.slipwayDetails
         (fst (SlipwayView.handleSave "7" true
                 (SlipwayView.mkWorld
                    (SlipwayView.mkState
                       (Some (Map.toSlipway "7" ["50.1"; "-5.2"]
                                (SlipwayView.asDetails ∅)))
                       (Some (Map.toSlipway "7" ["50.1"; "-5.2"]
                                (SlipwayView.asDetails
                                   {[ "Name" :=
                                        SlipwayView.JString "Quay" ]})))
                       [] false 0%N)
                    ∅ [] [])
                 (SlipwayView.mkEditForm true false None)))
         !! "7" = Some record
       /\ Details.Name (SlipwayView.asDetails record) = Some "Quay".
Proof.
  split.
  - match goal with
    | |- fst (SlipwayView.handleSave ?i ?r ?w ?f) = _ =>
        apply (proj2 (handleSave_replaces_record i r w f
                        (Map.sample "1" "Sample Slipway 1" "" JS.NaN JS.NaN)
                        (Map.sample "1" "Sample Slipway 1" "" JS.NaN JS.NaN)
                        eq_refl eq_refl))
    end.
    left. reflexivity.
  - match goal with
    | |- exists record,
           SlipwayView.slipwayDetails
             (fst (SlipwayView.handleSave ?i ?r ?w ?f)) !! _ = _ /\ _ =>
        destruct (proj1 (handleSave_replaces_record i r w f
                           (Map.toSlipway "7" ["50.1"; "-5.2"]
                              (SlipwayView.asDetails
                                 {[ "Name" := SlipwayView.JString "Quay" ]}))
                           (Map.toSlipway "7" ["50.1"; "-5.2"]
                              (SlipwayView.asDetails ∅))
                           eq_refl eq_refl) eq_refl eq_refl)
          as ((record & Hrecord & _ & Hname & _) & _)
    end.
    exists record. split; [exact Hrecord|exact Hname].
Defined.

(** ** Loading the slipway view *)



(** ** Facility lists through a save and through the edit box *)

Lemma prefix_empty s : String.prefix "" s = true.
Proof. destruct s; reflexivity. Qed.

Lemma split_no_separator s :
  JS.includes ", " s = false -> JS.split ", " s = [s].
Proof.
  unfold JS.split. induction s as [|c s IH]; [reflexivity|].
  cbn [JS.includes]. intros [Hp Hs]%orb_false_iff.
  cbn [JS.split_from]. rewrite Hp, (IH Hs). reflexivity.
Qed.

Lemma split_separator s rest :
  JS.includes ", " s = false ->
  JS.split ", " (s +:+ ", " +:+ rest) = s :: JS.split ", " rest.
Proof.
  unfold JS.split.
  change (", " +:+ rest) with (String "," (String " " rest)).
  induction s as [|c s IH].
  - intros _. rewrite append_nil. cbn. rewrite prefix_empty. reflexivity.
  - cbn [JS.includes]. intros [Hp Hs]%orb_false_iff.
    rewrite append_cons. cbn [JS.split_from].
    replace (String.prefix ", " (String c (s +:+ String "," (String " " rest))))
      with false.
    + rewrite (IH Hs). reflexivity.
    + symmetry. revert Hp. cbn [String.prefix].
      destruct (ascii_dec "," c) as [_|]; [|reflexivity].
      destruct s as [|d s]; [rewrite append_nil; reflexivity|].
      rewrite append_cons. cbn [String.prefix].
      destruct (ascii_dec " " d); [|reflexivity].
      rewrite prefix_empty. discriminate.
Qed.

Lemma split_join l :
  l <> [] ->
  (forall f, In f l -> JS.includes ", " f = false) ->
  JS.split ", " (JS.join ", " l) = l.
Proof.
  unfold JS.join. induction l as [|x l IH]; [congruence|]. intros _ Hall.
  destruct l as [|y l].
  - cbn. apply split_no_separator. apply Hall. left. reflexivity.
  - change (String.concat ", " (x :: y :: l))
      with (x +:+ ", " +:+ String.concat ", " (y :: l)).
    rewrite split_separator by (apply Hall; left; reflexivity).
    f_equal. apply IH; [discriminate|]. intros f Hf. apply Hall. right. exact Hf.
Qed.

Lemma prefix_comma c s :
  String.prefix "," (String c s) = if ascii_dec "," c then true else false.
Proof.
  cbn [String.prefix]. destruct (ascii_dec "," c); [apply prefix_empty|reflexivity].
Qed.

Lemma includes_comma s :
  JS.includes "," s = false <-> ~ In ","%char (list_ascii_of_string s).
Proof.
  induction s as [|c s IH]; cbn [JS.includes list_ascii_of_string In].
  - cbn. tauto.
  - rewrite prefix_comma, orb_false_iff, IH.
    destruct (ascii_dec "," c) as [->|Hne]; intuition congruence.
Qed.

Lemma bytes_append a b :
  list_ascii_of_string (a +:+ b)
  = list_ascii_of_string a ++ list_ascii_of_string b.
Proof.
  induction a as [|c a IH]; rewrite ?append_nil, ?append_cons; [reflexivity|].
  cbn. by rewrite IH.
Qed.

Lemma includes_comma_space s :
  JS.includes "," s = false -> JS.includes ", " s = false.
Proof.
  induction s as [|c s IH]; [reflexivity|]. cbn [JS.includes].
  rewrite prefix_comma. intros [Hc Hs]%orb_false_iff.
  rewrite (IH Hs), orb_false_r. cbn [String.prefix].
  destruct (ascii_dec "," c); [discriminate|reflexivity].
Qed.

Lemma split_comma_free s seg :
  In seg (JS.split "," s) -> JS.includes "," seg = false.
Proof.
  unfold JS.split. revert seg. induction s as [|c s IH]; intros seg.
  - intros [<-|[]]. reflexivity.
  - cbn [JS.split_from]. rewrite prefix_comma.
    destruct (ascii_dec "," c) as [_|Hne].
    + cbn [String.length Nat.sub]. intros [<-|Hin]; [reflexivity|auto].
    + destruct (JS.split_from "," 0 s) as [|seg0 segs] eqn:E.
      * intros [<-|[]]. cbn [JS.includes]. rewrite prefix_comma.
        destruct (ascii_dec "," c); [contradiction|reflexivity].
      * intros [<-|Hin].
        -- cbn [JS.includes]. rewrite prefix_comma.
           destruct (ascii_dec "," c); [contradiction|].
           apply IH. left. reflexivity.
        -- apply IH. right. exact Hin.
Qed.

Lemma trim_bytes_In x s :
  In x (list_ascii_of_string (JS.trim s)) -> In x (list_ascii_of_string s).
Proof.
  unfold JS.trim. rewrite list_ascii_of_string_of_list_ascii.
  intros Hx.
  destruct (trimEnd_prefix (JS.trimStart_bytes (list_ascii_of_string s)))
    as [k Hk].
  destruct (strip_suffix JS.ws1 JS.ws2 JS.ws3 (list_ascii_of_string s))
    as [k' Hk'].
  rewrite Hk'. apply in_or_app. right.
  unfold JS.trimStart_bytes in Hk. rewrite Hk. apply in_or_app. left.
  exact Hx.
Qed.

Lemma trim_comma_free s :
  JS.includes "," s = false -> JS.includes "," (JS.trim s) = false.
Proof.
  rewrite !includes_comma. intros Hs Hin. apply Hs.
  by apply trim_bytes_In.
Qed.

Lemma enteredFacilities_entries facilitiesText f :
  In f (SlipwayView.enteredFacilities facilitiesText) ->
  JS.trim f = f /\ f <> "" /\ JS.includes "," f = false.
Proof.
  unfold SlipwayView.enteredFacilities.
  intros [(x & <- & Hx)%in_map_iff Hf]%filter_In.
  split; [apply trim_idem|]. split; [by apply truthy_true|].
  apply trim_comma_free. by apply (split_comma_free facilitiesText).
Qed.

Lemma split_comma_single s :
  JS.includes "," s = false -> JS.split "," s = [s].
Proof.
  unfold JS.split. induction s as [|c s IH]; [reflexivity|].
  cbn [JS.includes]. intros [Hp Hs]%orb_false_iff.
  cbn [JS.split_from]. rewrite Hp, (IH Hs). reflexivity.
Qed.

Lemma split_comma_separator s rest :
  JS.includes "," s = false ->
  JS.split "," (s +:+ String "," rest) = s :: JS.split "," rest.
Proof.
  unfold JS.split. induction s as [|c s IH].
  - intros _. rewrite append_nil. cbn [JS.split_from].
    rewrite prefix_comma. reflexivity.
  - cbn [JS.includes]. rewrite prefix_comma.
    intros [Hp Hs]%orb_false_iff.
    rewrite append_cons. cbn [JS.split_from]. rewrite prefix_comma, Hp.
    rewrite (IH Hs). reflexivity.
Qed.

Lemma trim_after_space s : JS.trim (String " " s) = JS.trim s.
Proof. reflexivity. Qed.

Lemma includes_comma_append a b :
  JS.includes "," a = false -> JS.includes "," b = false ->
  JS.includes "," (a +:+ b) = false.
Proof.
  rewrite !includes_comma, bytes_append. intros Ha Hb [?|?]%in_app_or; auto.
Qed.

Lemma entered_join_prefix pre l :
  l <> [] ->
  JS.includes "," pre = false ->
  (forall x, JS.trim (pre +:+ x) = JS.trim x) ->
  (forall f, In f l -> JS.trim f = f /\ JS.includes "," f = false) ->
  map JS.trim (JS.split "," (pre +:+ JS.join ", " l)) = l.
Proof.
  unfold JS.join. revert pre. induction l as [|x l IH]; [congruence|].
  intros pre _ Hpre Htrim Hall.
  destruct (Hall x (or_introl eq_refl)) as [Hx Hxc].
  destruct l as [|y l].
  - cbn [String.concat].
    rewrite split_comma_single by (by apply includes_comma_append).
    cbn. rewrite Htrim, Hx. reflexivity.
  - change (String.concat ", " (x :: y :: l))
      with (x +:+ String "," (String " " (String.concat ", " (y :: l)))).
    rewrite <- append_assoc.
    rewrite split_comma_separator by (by apply includes_comma_append).
    cbn [map]. rewrite Htrim, Hx. f_equal.
    apply (IH " "); [discriminate|reflexivity| |].
    + intros z. apply trim_after_space.
    + intros f Hf. apply Hall. right. exact Hf.
Qed.

Lemma entered_join l :
  (forall f, In f l -> JS.trim f = f /\ f <> "" /\ JS.includes "," f = false) ->
  SlipwayView.enteredFacilities (JS.join ", " l) = l.
Proof.
  intros Hall. unfold SlipwayView.enteredFacilities.
  destruct l as [|x l]; [reflexivity|].
  rewrite <- (append_nil (JS.join ", " (x :: l))).
  rewrite (entered_join_prefix "" (x :: l));
    [|discriminate|reflexivity|reflexivity|intros f Hf; split; apply (Hall f Hf)].
  apply filter_all. intros f Hf. apply truthy_true. apply (Hall f Hf).
Qed.

Lemma parseFacilities_join l :
  (forall f, In f l -> JS.blank f = false /\ JS.includes ", " f = false) ->
  Map.parseFacilities (Some (JS.join ", " l)) = l.
Proof.
  intros Hall. unfold Map.parseFacilities.
  destruct l as [|x l]; [reflexivity|].
  assert (Hx : x <> "").
  { intros ->. destruct (Hall "" (or_introl eq_refl)) as [Hb _]. discriminate Hb. }
  replace (JS.truthy (JS.join ", " (x :: l))) with true.
  - rewrite split_join; [|discriminate|intros f Hf; apply (Hall f Hf)].
    apply filter_all. intros f Hf. destruct (Hall f Hf) as [Hb _].
    unfold JS.blank in Hb. by apply negb_false_iff.
  - symmetry. apply truthy_true. unfold JS.join. destruct x; [congruence|].
    destruct l; discriminate.
Qed.

(** A facility list whose entries are neither blank nor contain a comma
    followed by a space survives a save and a reload: what the save
    writes under [Facilities] reads back, in the map and in the view, as
    the same list. *)
Theorem facilities_survive_save_and_reload
    (edited : Slipway.t) (l : list string) (slipwayId : string)
    (coords : list string) :
  Slipway.facilities edited = Some l ->
  (forall f, In f l -> JS.blank f = false /\ JS.includes ", " f = false) ->
  Map.parseFacilities (Details.Facilities (SlipwayView.updatedDetails edited))
  = l
  /\ Slipway.facilities
       (Map.toSlipway slipwayId coords (SlipwayView.updatedDetails edited))
     = Some l
  /\ Slipway.facilities
       (SlipwayView.fetchedSlipwayData slipwayId coords
          (SlipwayView.updatedDetails edited))
     = Some l.
Proof.
  intros Hl Hall.
  assert (Hread : Map.parseFacilities
                    (Details.Facilities (SlipwayView.updatedDetails edited))
                  = l).
  { unfold SlipwayView.updatedDetails. cbn [Details.Facilities].
    rewrite Hl. change (JS.join ", " <$> Some l) with (Some (JS.join ", " l)).
    rewrite join_or_else. by apply parseFacilities_join. }
  split; [exact Hread|].
  split; cbn [Map.toSlipway SlipwayView.fetchedSlipwayData Slipway.facilities];
    rewrite Hread; reflexivity.
Qed.

Lemma facilities_survive_save_and_reload_witness :
  Map.parseFacilities
    (Details.Facilities
       (SlipwayView.updatedDetails
          (Slipway.with_facilities
             (Map.sample "1" "Sample Slipway 1" "" JS.NaN JS.NaN)
             ["Parking"; "Toilets (summer)"])))
  = ["Parking"; "Toilets (summer)"].
Proof.
  apply (facilities_survive_save_and_reload
           (Slipway.with_facilities
              (Map.sample "1" "Sample Slipway 1" "" JS.NaN JS.NaN)
              ["Parking"; "Toilets (summer)"])
           ["Parking"; "Toilets (summer)"] "1" []).
  - reflexivity.
  - intros f [<-|[<-|[]]]; split; reflexivity.
Defined.

(** Whatever is typed in the facilities box, the entries kept are
    trimmed, not empty and free of commas.  So the text the box then
    shows (the entries joined with a comma and a space) parses back to
    the same entries, and so does the string a save writes when the map
    reads it. *)
Theorem entered_facilities_are_stable (facilitiesText : string) :
  (forall f,
      In f (SlipwayView.enteredFacilities facilitiesText) ->
      JS.trim f = f /\ f <> "" /\ JS.includes "," f = false)
  /\ SlipwayView.enteredFacilities
       (JS.join ", " (SlipwayView.enteredFacilities facilitiesText))
     = SlipwayView.enteredFacilities facilitiesText
  /\ Map.parseFacilities
       (Some (JS.join ", " (SlipwayView.enteredFacilities facilitiesText)))
     = SlipwayView.enteredFacilities facilitiesText.
Proof.
  split; [apply enteredFacilities_entries|]. split.
  - apply entered_join. apply enteredFacilities_entries.
  - apply parseFacilities_join. intros f Hf.
    destruct (enteredFacilities_entries _ _ Hf) as (Htrim & Hne & Hcomma).
    split; [|by apply includes_comma_space].
    unfold JS.blank. rewrite Htrim.
    apply negb_false_iff. by apply truthy_true.
Qed.

Lemma entered_facilities_are_stable_witness :
  JS.trim "Slip" = "Slip" /\ "Slip" <> "" /\ JS.includes "," "Slip" = false.
Proof.
  apply (proj1 (entered_facilities_are_stable " Parking ,, Slip ,  ")).
  right. left. reflexivity.
Defined.

(** ** The signing function *)

Lemma present_true v : SignS3.present v = true <-> exists s, v = Some s /\ s <> "".
Proof.
  unfold SignS3.present. destruct v as [s|].
  - rewrite truthy_true. split; [eauto|]. intros (? & [= <-] & ?). assumption.
  - split; [discriminate|]. intros (? & ? & _). discriminate.
Qed.

Ltac handler_cases event env signer :=
  unfold SignS3.handler;
  destruct (String.eqb_spec (SignS3.httpMethod event) "OPTIONS") as [Ho|Ho];
  [| destruct (String.eqb_spec (SignS3.httpMethod event) "GET") as [Hg|Hg];
     cbn [negb];
     [ destruct (SignS3.present (SignS3.file_name event)) eqn:Hn;
       destruct (SignS3.present (SignS3.file_type event)) eqn:Ht;
       cbn [negb orb];
       [ destruct (SignS3.present (SignS3.S3_BUCKET_NAME env)) eqn:Hb;
         cbn [negb];
         [ destruct (SignS3.present (SignS3.AWS_ACCESS_KEY_ID_1 env)) eqn:Hk;
           destruct (SignS3.present (SignS3.AWS_SECRET_ACCESS_KEY_1 env))
             eqn:Hs;
           cbn [negb orb];
           [ destruct signer as [|data] | | | ]
         | ]
       | | | ]
     | ] ].

Lemma handler_signed_iff event env signer :
  (exists signed_request url,
      SignS3.body (SignS3.handler event env signer)
      = SignS3.SignedBody signed_request url)
  <-> SignS3.httpMethod event = "GET"
      /\ SignS3.present (SignS3.file_name event) = true
      /\ SignS3.present (SignS3.file_type event) = true
      /\ SignS3.present (SignS3.S3_BUCKET_NAME env) = true
      /\ SignS3.present (SignS3.AWS_ACCESS_KEY_ID_1 env) = true
      /\ SignS3.present (SignS3.AWS_SECRET_ACCESS_KEY_1 env) = true
      /\ exists data, signer = SignS3.SignerGives data.
Proof.
  handler_cases event env signer;
    (split;
     [ intros (? & ? & H); cbn in H; try discriminate H; eauto 10
     | intros (Hm & H1 & H2 & H3 & H4 & H5 & (d & H6));
       try congruence; cbn; eauto ]).
Qed.

Lemma handler_signed event env signer signed_request url :
  SignS3.body (SignS3.handler event env signer)
  = SignS3.SignedBody signed_request url ->
  SignS3.statusCode (SignS3.handler event env signer) = 200%N
  /\ signer = SignS3.SignerGives signed_request
  /\ exists bucket file_name,
       SignS3.S3_BUCKET_NAME env = Some bucket
       /\ SignS3.file_name event = Some file_name
       /\ url = "https://" +:+ bucket +:+ ".s3.amazonaws.com/" +:+ file_name.
Proof.
  handler_cases event env signer; cbn; try discriminate.
  apply present_true in Hn as (file_name & Hn & Hn').
  apply present_true in Hb as (bucket & Hb & Hb').
  intros [= <- <-]. split; [reflexivity|]. split; [reflexivity|].
  exists bucket, file_name. rewrite Hn, Hb. cbn [JS.or_else].
  rewrite (proj2 (truthy_true _) Hn'), (proj2 (truthy_true _) Hb').
  repeat split.
Qed.

Lemma handler_missing_parameter event env signer :
  SignS3.httpMethod event = "GET" ->
  SignS3.present (SignS3.file_name event) = false
  \/ SignS3.present (SignS3.file_type event) = false ->
  SignS3.handler event env signer
  = SignS3.mkResponse 400
      (SignS3.ErrorBody "Missing file_name or file_type" None).
Proof.
  intros Hm Hmissing.
  handler_cases event env signer; try reflexivity; try congruence;
    destruct Hmissing; congruence.
Qed.

Lemma handler_status event env signer :
  In (SignS3.statusCode (SignS3.handler event env signer))
    [200; 400; 405; 500]%N.
Proof. handler_cases event env signer; cbn; tauto. Qed.

(** The function hands out a signed address exactly when it is asked by
    GET, with both parameters, with the bucket and both credentials
    configured, and the signer succeeds; the answer is then a 200 with
    the signer's address and the public address
    [https://<bucket>.s3.amazonaws.com/<file_name>].  A GET that lacks a
    parameter is answered 400 whatever the configuration; a pre-flight
    OPTIONS is answered 200 with an empty body; the status is always one
    of 200, 400, 405 and 500. *)
Theorem sign_handler_answers
    (event : SignS3.Event) (env : SignS3.Environment)
    (signer : SignS3.Signer) :
  let response := SignS3.handler event env signer in
  ((exists signed_request url,
      SignS3.body response = SignS3.SignedBody signed_request url)
   <-> SignS3.httpMethod event = "GET"
       /\ SignS3.present (SignS3.file_name event) = true
       /\ SignS3.present (SignS3.file_type event) = true
       /\ SignS3.present (SignS3.S3_BUCKET_NAME env) = true
       /\ SignS3.present (SignS3.AWS_ACCESS_KEY_ID_1 env) = true
       /\ SignS3.present (SignS3.AWS_SECRET_ACCESS_KEY_1 env) = true
       /\ exists data, signer = SignS3.SignerGives data)
  /\ (forall signed_request url,
        SignS3.body response = SignS3.SignedBody signed_request url ->
        SignS3.statusCode response = 200%N
        /\ signer = SignS3.SignerGives signed_request
        /\ exists bucket file_name,
             SignS3.S3_BUCKET_NAME env = Some bucket
             /\ SignS3.file_name event = Some file_name
             /\ url = "https://" +:+ bucket +:+ ".s3.amazonaws.com/"
                      +:+ file_name)
  /\ (SignS3.httpMethod event = "GET" ->
      SignS3.present (SignS3.file_name event) = false
      \/ SignS3.present (SignS3.file_type event) = false ->
      response
      = SignS3.mkResponse 400
          (SignS3.ErrorBody "Missing file_name or file_type" None))
  /\ (SignS3.httpMethod event = "OPTIONS" ->
      response = SignS3.mkResponse 200 SignS3.NoBody)
  /\ In (SignS3.statusCode response) [200; 400; 405; 500]%N.
Proof.
  intros response. subst response.
  split; [apply handler_signed_iff|].
  split; [apply handler_signed|].
  split; [apply handler_missing_parameter|].
  split; [|apply handler_status].
  intros Ho. unfold SignS3.handler. rewrite Ho. reflexivity.
Qed.

Lemma sign_handler_answers_witness :
  SignS3.handler (SignS3.mkEvent "GET" (Some "WebSitePhotos/a___Source.jpg") None)
    (SignS3.mkEnvironment None None None) (SignS3.SignerGives "https://signed")
  = SignS3.mkResponse 400
      (SignS3.ErrorBody "Missing file_name or file_type" None)
  /\ SignS3.statusCode
       (SignS3.handler
          (SignS3.mkEvent "GET" (Some "WebSitePhotos/a___Source.jpg")
             (Some "image/png"))
          (SignS3.mkEnvironment (Some "photos") (Some "id") (Some "secret"))
          (SignS3.SignerGives "https://signed")) = 200%N.
Proof.
  split.
  - apply (proj1 (proj2 (proj2 (sign_handler_answers _ _ _))));
      [reflexivity | right; reflexivity].
  - eapply (proj1 (proj2 (sign_handler_answers _ _ _))). reflexivity.
Defined.

(** ** The upload service against the signing function *)

Lemma valid_type_present file :
  FetchImgService.valid (FetchImgService.validateImageFile file) = true ->
  FetchImgService.type file <> "".
Proof.
  unfold FetchImgService.validateImageFile.
  destruct (FetchImgService.includes _ _) eqn:Ht; [|discriminate].
  apply includes_In in Ht. intros _ Hempty. rewrite Hempty in Ht.
  cbn in Ht. intuition discriminate.
Qed.

Lemma handler_get file_name file_type env signer :
  file_name <> "" -> file_type <> "" ->
  SignS3.handler (SignS3.mkEvent "GET" (Some file_name) (Some file_type))
    env signer
  = if negb (SignS3.present (SignS3.S3_BUCKET_NAME env)) then
      SignS3.mkResponse 500
        (SignS3.ErrorBody "S3_BUCKET_NAME not configured"
           (Some "Please add S3_BUCKET_NAME to your environment variables"))
    else if negb (SignS3.present (SignS3.AWS_ACCESS_KEY_ID_1 env))
            || negb (SignS3.present (SignS3.AWS_SECRET_ACCESS_KEY_1 env))
    then
      SignS3.mkResponse 500
        (SignS3.ErrorBody "AWS credentials not configured"
           (Some "Please add AWS_ACCESS_KEY_ID_1 and AWS_SECRET_ACCESS_KEY_1 to your environment variables"))
    else
      match signer with
      | SignS3.SignerFails =>
          SignS3.mkResponse 500
            (SignS3.ErrorBody "Error generating signed URL" None)
      | SignS3.SignerGives signedUrl =>
          SignS3.mkResponse 200
            (SignS3.SignedBody signedUrl
               ("https://" +:+ JS.or_else (SignS3.S3_BUCKET_NAME env) ""
                +:+ ".s3.amazonaws.com/" +:+ file_name))
      end.
Proof.
  intros Hn%truthy_true Ht%truthy_true. unfold SignS3.handler.
  cbn [SignS3.httpMethod SignS3.file_name SignS3.file_type SignS3.present].
  rewrite Hn, Ht. cbn [JS.or_else]. rewrite Hn. reflexivity.
Qed.

(** A file that passed validation is never turned down by the signing
    function for a missing parameter or a wrong method: the request the
    service issues is a GET carrying a non-empty key and a non-empty
    type.  When the bucket or the credentials are not configured, the
    promise rejects with the function's own error text and no transfer is
    attempted; when everything is configured and the signer and the
    transfer succeed, the file is sent to the signer's address and the
    promise resolves to the public address of the key. *)
Theorem validated_upload_meets_sign_function
    (file : FetchImgService.File) (newImgId parseError : string)
    (env : SignS3.Environment) (signer : SignS3.Signer)
    (transfer : ProxyUploadService.Transfer) :
  FetchImgService.valid (FetchImgService.validateImageFile file) = true ->
  let key := "WebSitePhotos/" +:+ newImgId +:+ "___Source.jpg" in
  let event :=
    SignS3.mkEvent "GET" (Some key) (Some (FetchImgService.type file)) in
  let response := SignS3.handler event env signer in
  (forall sign transfer',
      head (ProxyUploadService.requests
              (ProxyUploadService.proxyUploadService file newImgId
                 sign transfer'))
        ≫= SignS3.eventOf
      = Some event)
  /\ SignS3.statusCode response <> 400%N
  /\ SignS3.statusCode response <> 405%N
  /\ exists sign,
       SignS3.received response parseError = Some sign
       /\ let upload :=
            ProxyUploadService.proxyUploadService file newImgId
              sign transfer in
          (SignS3.present (SignS3.S3_BUCKET_NAME env) = false ->
           ProxyUploadService.settled upload
           = ProxyUploadService.RejectedWith "S3_BUCKET_NAME not configured"
           /\ length (ProxyUploadService.requests upload) = 1)
          /\ (SignS3.present (SignS3.S3_BUCKET_NAME env) = true ->
              SignS3.present (SignS3.AWS_ACCESS_KEY_ID_1 env) = false
              \/ SignS3.present (SignS3.AWS_SECRET_ACCESS_KEY_1 env) = false ->
              ProxyUploadService.settled upload
              = ProxyUploadService.RejectedWith
                  "AWS credentials not configured"
              /\ length (ProxyUploadService.requests upload) = 1)
          /\ (forall bucket data,
                SignS3.S3_BUCKET_NAME env = Some bucket -> bucket <> "" ->
                SignS3.present (SignS3.AWS_ACCESS_KEY_ID_1 env) = true ->
                SignS3.present (SignS3.AWS_SECRET_ACCESS_KEY_1 env) = true ->
                signer = SignS3.SignerGives data ->
                transfer = ProxyUploadService.Load 200 ->
                ProxyUploadService.settled upload
                = ProxyUploadService.Resolved
                    ("https://" +:+ bucket +:+ ".s3.amazonaws.com/" +:+ key)
                /\ ProxyUploadService.requests upload
                   = [ProxyUploadService.SignRequest key
                        (FetchImgService.type file);
                      ProxyUploadService.PutRequest data
                        (FetchImgService.type file) "public-read"]).
Proof.
  intros Hvalid key event response.
  assert (Hkey : key <> "") by (subst key; rewrite append_cons; discriminate).
  assert (Htype := valid_type_present file Hvalid).
  subst response event. rewrite (handler_get _ _ env signer Hkey Htype).
  split.
  { intros sign transfer'. rewrite proxyUploadService_requests. reflexivity. }
  destruct (SignS3.present (SignS3.S3_BUCKET_NAME env)) eqn:Hb; cbn [negb].
  2: { split; [discriminate|]. split; [discriminate|].
       eexists. split; [reflexivity|]. cbn.
       split; [intros _; split; reflexivity|].
       split; [discriminate|]. intros bucket data Hbucket Hne.
       rewrite Hbucket in Hb. cbn in Hb.
       apply truthy_true in Hne. congruence. }
  destruct (SignS3.present (SignS3.AWS_ACCESS_KEY_ID_1 env)) eqn:Hk;
    destruct (SignS3.present (SignS3.AWS_SECRET_ACCESS_KEY_1 env)) eqn:Hs;
    cbn [negb orb].
  2-4: (split; [discriminate|]; split; [discriminate|];
        eexists; split; [reflexivity|]; cbn;
        split; [discriminate|];
        split; [intros _ _; split; reflexivity|];
        intros; discriminate).
  destruct signer as [|data]; (split; [discriminate|]; split; [discriminate|]).
  - eexists. split; [reflexivity|]. cbn.
    split; [discriminate|]. split; [intros _ [?|?]; discriminate|].
    intros; discriminate.
  - eexists. split; [reflexivity|]. cbn [ProxyUploadService.proxyUploadService].
    split; [discriminate|]. split; [intros _ [?|?]; discriminate|].
    intros bucket data' Hbucket Hne _ _ [= <-] ->.
    rewrite Hbucket. cbn [JS.or_else].
    rewrite (proj2 (truthy_true _) Hne). cbn. split; reflexivity.
Qed.

Lemma validated_upload_meets_sign_function_witness :
  SignS3.statusCode
    (SignS3.handler
       (SignS3.mkEvent "GET"
          (Some ("WebSitePhotos/" +:+ "slipway_7_1700000000000_k3x9qz"
                 +:+ "___Source.jpg"))
          (Some "image/png"))
       (SignS3.mkEnvironment None None None) SignS3.SignerFails)
  <> 400%N.
Proof.
  apply (validated_upload_meets_sign_function
           (FetchImgService.mkFile "image/png" 2048)
           "slipway_7_1700000000000_k3x9qz" "Unexpected end of JSON input"
           (SignS3.mkEnvironment None None None) SignS3.SignerFails
           ProxyUploadService.NetworkError).
  reflexivity.
Defined.

(** ** What a successful upload stores *)

(** After a fully successful upload the record of the slipway is the
    in-memory entity: its [imgs] is the list the view held followed by
    the new identifier, it has none of the capitalised properties the
    readers of the table look up, so the next join reads its name as
    "Unknown"; the records of the other slipways are untouched. *)
Theorem successful_upload_stores_entity
    (bucket slipwayId : string) (file : FetchImgService.File)
    (env : SlipwayView.Env) (w : SlipwayView.World)
    (signed_request url : string) (current : Slipway.t) :
  FetchImgService.valid (FetchImgService.validateImageFile file) = true ->
  SlipwayView.sign env
  = ProxyUploadService.Ok (ProxyUploadService.Json (signed_request, url)) ->
  url <> "" ->
  SlipwayView.transfer env = ProxyUploadService.Load 200 ->
  SlipwayView.setResolves env = true ->
  SlipwayView.slipway (SlipwayView.state w) = Some current ->
  let w' := SlipwayView.handlePhotoUpload bucket slipwayId (Some file) env w in
  (exists record,
     SlipwayView.slipwayDetails w' !! slipwayId = Some record
     /\ record !! "imgs"
        = Some (SlipwayView.JStrings
                  (JS.or_array (Slipway.imgs current) []
                   ++ [FetchImgService.generateImageId slipwayId
                         (SlipwayView.now env) (SlipwayView.random env)]))
     /\ record !! "Name" = None
     /\ record !! "Suitability" = None
     /\ forall coords,
          Slipway.name
            (Map.toSlipway slipwayId coords (SlipwayView.asDetails record))
          = "Unknown")
  /\ forall other,
       other <> slipwayId ->
       SlipwayView.slipwayDetails w' !! other
       = SlipwayView.slipwayDetails w !! other.
Proof.
  intros Hvalid Hsign Hurl Htransfer Hset Hcurrent w'. subst w'.
  rewrite (handlePhotoUpload_stores _ _ _ _ _ _ _ _
             Hvalid Hsign Hurl Htransfer Hset Hcurrent).
  split.
  - eexists. split; [apply lookup_insert_eq|].
    split; [apply toObject_imgs|].
    assert (Hname : forall s, SlipwayView.toObject s !! "Name" = None).
    { intros s. apply toObject_capitalised. set_solver. }
    split; [apply Hname|]. split.
    + apply toObject_capitalised. set_solver.
    + intros coords. cbn [Map.toSlipway Slipway.name SlipwayView.asDetails
                            Details.Name].
      unfold SlipwayView.getString. rewrite Hname. reflexivity.
  - intros other Hother. apply lookup_insert_ne. congruence.
Qed.

Lemma successful_upload_stores_entity_witness :
  SlipwayView.slipwayDetails
    (SlipwayView.handlePhotoUpload "photos" "7"
       (Some (FetchImgService.mkFile "image/jpeg" 2048))
       (SlipwayView.mkEnv 1700000000000 "k3x9qz"
          (ProxyUploadService.Ok
             (ProxyUploadService.Json ("https://signed", "https://public")))
          (ProxyUploadService.Load 200) true)
       (SlipwayView.mkWorld
          (SlipwayView.mkState
             (Some (Map.toSlipway "7" ["50.1"; "-5.2"]
                      (SlipwayView.asDetails ∅)))
             None [] false 0%N)
          {[ "8" := {[ "Name" := SlipwayView.JString "Beach" ]} ]} [] []))
    !! "8"
  = Some {[ "Name" := SlipwayView.JString "Beach" ]}.
Proof.
  match goal with
  | |- SlipwayView.slipwayDetails
         (SlipwayView.handlePhotoUpload ?b ?i (Some ?f) ?e ?w) !! _ = _ =>
      rewrite (proj2 (successful_upload_stores_entity b i f e w
                        "https://signed" "https://public"
                        (Map.toSlipway "7" ["50.1"; "-5.2"]
                           (SlipwayView.asDetails ∅))
                        eq_refl eq_refl ltac:(discriminate)
                        eq_refl eq_refl eq_refl) "8" ltac:(discriminate))
  end.
  reflexivity.
Defined.

(** ** Adding a slipway *)


(** Without a signed-in user, without a location, with a name that is
    blank once trimmed, without a key, or when the write of the
    coordinates is rejected, the form reports an error, writes nothing
    and does not navigate. *)
Theorem handleSubmit_refusals
    (toString : JS.Number -> string) (user : option Auth.User)
    (initialLocation : option (JS.Number * JS.Number))
    (formData : AddSlipway.FormData) (key : option string)
    (latLngsResolves detailsResolves onNavigate : bool)
    (t : AddSlipway.Tables) :
  let outcome :=
    AddSlipway.handleSubmit toString user initialLocation formData key
      latLngsResolves detailsResolves onNavigate t in
  (user = None \/ initialLocation = None
   \/ JS.trim (AddSlipway.name formData) = ""
   \/ SignS3.present key = false \/ latLngsResolves = false ->
   AddSlipway.tables outcome = t
   /\ AddSlipway.navigation outcome = None
   /\ AddSlipway.error outcome <> None)
  /\ (user <> None -> initialLocation <> None ->
      JS.trim (AddSlipway.name formData) = "" ->
      AddSlipway.error outcome = Some "Slipway name is required").
Proof.
  intros outcome. subst outcome. unfold AddSlipway.handleSubmit.
  destruct user as [u|]; [|split; [repeat split; discriminate|congruence]].
  destruct initialLocation as [[latitude longitude]|];
    [|split; [repeat split; discriminate|congruence]].
  destruct (JS.truthy (JS.trim (AddSlipway.name formData))) eqn:Hname;
    cbn [negb].
  2: { split; [repeat split; discriminate|reflexivity]. }
  apply truthy_true in Hname. split; [|congruence].
  intros [? | [? | [? | [Hkey | Hset]]]]; try congruence.
  - rewrite Hkey. repeat split; discriminate.
  - rewrite Hset. destruct (SignS3.present key); repeat split; discriminate.
Qed.

Lemma handleSubmit_refusals_witness :
  AddSlipway.error
    (AddSlipway.handleSubmit (fun _ => "0")
       (Some (Auth.mkUser "u1" None None))
       (Some (JS.Decimal false 501 (-1), JS.Decimal true 52 (-1)))
       (AddSlipway.mkFormData "   " "" "" "" "" "" "" "" "" "" "" "" "" "" "" "")
       (Some "-Nx1") true true true (AddSlipway.mkTables ∅ ∅))
  = Some "Slipway name is required".
Proof.
  apply (proj2 (handleSubmit_refusals (fun _ => "0")
                  (Some (Auth.mkUser "u1" None None))
                  (Some (JS.Decimal false 501 (-1), JS.Decimal true 52 (-1)))
                  (AddSlipway.mkFormData "   " "" "" "" "" "" "" "" "" "" ""
                     "" "" "" "" "")
                  (Some "-Nx1") true true true (AddSlipway.mkTables ∅ ∅)));
    [discriminate | discriminate | reflexivity].
Defined.



(** The two writes are not atomic: when the coordinates are written and
    the write of the details is rejected, the coordinate entry stays
    without a record.  The form reports the failure and does not
    navigate, and as long as no record exists under that key, and the
    key does not name a member every object inherits, the join yields no
    entity for it. *)
Theorem failed_details_write_orphans_coordinates
    (toString : JS.Number -> string) (user : Auth.User)
    (latitude longitude : JS.Number) (formData : AddSlipway.FormData)
    (slipwayId : string) (onNavigate : bool) (t : AddSlipway.Tables) :
  JS.trim (AddSlipway.name formData) <> "" ->
  slipwayId <> "" ->
  let outcome :=
    AddSlipway.handleSubmit toString (Some user) (Some (latitude, longitude))
      formData (Some slipwayId) true false onNavigate t in
  AddSlipway.latLngs (AddSlipway.tables outcome) !! slipwayId
  = Some [toString latitude; toString longitude]
  /\ AddSlipway.slipwayDetails (AddSlipway.tables outcome)
     = AddSlipway.slipwayDetails t
  /\ AddSlipway.error outcome
     = Some "Failed to save slipway. Please try again."
  /\ AddSlipway.navigation outcome = None
  /\ (AddSlipway.slipwayDetails t !! slipwayId = None ->
      Map.inherits slipwayId = false ->
      Map.entitiesWithId slipwayId
        (AddSlipway.joined (AddSlipway.tables outcome)) = []).
Proof.
  intros Hname%truthy_true Hid%truthy_true outcome. subst outcome.
  unfold AddSlipway.handleSubmit.
  cbn [SignS3.present JS.or_else]. rewrite Hname, Hid. cbn [negb].
  cbn [AddSlipway.error AddSlipway.tables AddSlipway.navigation
         AddSlipway.latLngs AddSlipway.slipwayDetails].
  split; [apply lookup_insert_eq|]. repeat split.
  intros Hfresh Hown. unfold AddSlipway.joined.
  rewrite entitiesWithId_join. unfold Map.joinOne, Map.member.
  cbn [AddSlipway.latLngs AddSlipway.slipwayDetails].
  rewrite lookup_insert_eq, lookup_fmap, Hfresh, Hown. reflexivity.
Qed.

Lemma failed_details_write_orphans_coordinates_witness :
  Map.entitiesWithId "-Nx1"
    (AddSlipway.joined
       (AddSlipway.tables
          (AddSlipway.handleSubmit (fun _ => "0")
             (Some (Auth.mkUser "u1" None None))
             (Some (JS.Decimal false 501 (-1), JS.Decimal true 52 (-1)))
             (AddSlipway.mkFormData " Quay " "" "" "" "" "" "" "" "" "" "" ""
                "" "" "" "")
             (Some "-Nx1") true false true (AddSlipway.mkTables ∅ ∅))))
  = [].
Proof.
  apply (failed_details_write_orphans_coordinates (fun _ => "0")
           (Auth.mkUser "u1" None None)
           (JS.Decimal false 501 (-1)) (JS.Decimal true 52 (-1))
           (AddSlipway.mkFormData " Quay " "" "" "" "" "" "" "" "" "" "" ""
              "" "" "" "")
           "-Nx1" true (AddSlipway.mkTables ∅ ∅));
    [discriminate | discriminate | reflexivity | reflexivity].
Defined.

(** ** From a click on the map to the add form *)

(** In add mode a click on the map asks for the add view and leaves add
    mode; outside add mode, or without a navigation callback, it does
    nothing.  The application stores the clicked position only when
    neither coordinate is falsy: a click at latitude or longitude 0
    opens the add view with the previous location, and when there was
    none the form answers "Location is required" to a complete entry. *)
Theorem map_click_reaches_add_form
    (lat lng : JS.Number) (now : N) (st : App.State) :
  Map.handleMapClick true true lat lng
  = (Some ("addSlipway", Nav.Location lat lng), false)
  /\ (forall addSlipwayMode onNavigate,
        addSlipwayMode = false \/ onNavigate = false ->
        Map.handleMapClick addSlipwayMode onNavigate lat lng
        = (None, addSlipwayMode))
  /\ let st' :=
       fst (App.handleMenuClick "addSlipway" (Some (Nav.Location lat lng))
              now st) in
     App.activeView st' = "addSlipway"
     /\ (JS.truthyNumber lat = true -> JS.truthyNumber lng = true ->
         App.addSlipwayLocation st' = Some (lat, lng)
         /\ App.centerOnSlipway st' = None)
     /\ (JS.truthyNumber lat = false \/ JS.truthyNumber lng = false ->
         App.addSlipwayLocation st' = App.addSlipwayLocation st
         /\ forall toString user formData key r1 r2 onNavigate t,
              App.addSlipwayLocation st = None ->
              AddSlipway.handleSubmit toString (Some user)
                (App.addSlipwayLocation st') formData key r1 r2 onNavigate t
              = AddSlipway.mkOutcome t (Some "Location is required") None).
Proof.
  split; [reflexivity|]. split.
  - intros addSlipwayMode onNavigate [-> | ->]; [reflexivity|].
    unfold Map.handleMapClick. rewrite andb_false_r. reflexivity.
  - unfold App.handleMenuClick, App.routed.
    destruct (JS.truthyNumber lat), (JS.truthyNumber lng); cbn;
      (split; [reflexivity|]);
      (split; [intros; try discriminate; split; reflexivity|]);
      intros [?|?]; try discriminate;
      (split; [reflexivity|]); intros; subst;
      match goal with H : App.addSlipwayLocation _ = None |- _ =>
        rewrite H end; reflexivity.
Qed.

Lemma map_click_reaches_add_form_witness :
  App.addSlipwayLocation
    (fst (App.handleMenuClick "addSlipway"
            (Some (Nav.Location (JS.Decimal false 0 0)
                     (JS.Decimal true 52 (-1))))
            1700000000000
            (App.mkState "map" None None None true "" "")))
  = None.
Proof.
  apply (proj2 (proj2 (map_click_reaches_add_form
                         (JS.Decimal false 0 0) (JS.Decimal true 52 (-1))
                         1700000000000
                         (App.mkState "map" None None None true "" "")))).
  left. reflexivity.
Defined.
